(** * terrajet: the workspace lifecycle of pkg/client and the managed-resource
      adapter of pkg/terraform, embedded from the Go sources.

    Pointers are [option]s ([None] is nil), a Go map is an [option] of a
    [gmap] ([None] is the nil map), multiple return values are tuples with
    an [option error] last, and a panic is the [Panics] outcome of the
    state monad [M]. *)

From Stdlib Require Import ZArith String List Bool Ascii PrimFloat.
From stdpp Require Import gmap strings list fin_maps.

Set Warnings "-register-all".
#[local] Open Scope string_scope.

(** ** Values of the Go runtime *)

(** [time.Time] as an instant in nanoseconds, [time.Duration] likewise. *)
Definition Time : Type := Z.
Definition Duration : Type := Z.
Definition Hour : Duration := 3600000000000%Z.
Definition defaultAsyncTimeout : Duration := (1 * Hour)%Z.
Definition Time_Add (t : Time) (d : Duration) : Time := (t + d)%Z.

(** [context.Context]: only its deadline matters here; [context.TODO()]
    has none. *)
Definition Context : Type := option Time.
Definition context_TODO : Context := None.
Definition context_WithDeadline (parent : Context) (d : Time) : Context :=
  match parent with
  | Some d0 => if (d0 <? d)%Z then Some d0 else Some d
  | None => Some d
  end.

(** An operand of a [%s] verb, kept as the value that was passed. *)
Inductive fmtarg : Type :=
| ArgString (s : string)
| ArgTime (t : Time).

(** [error] values: the constructors of github.com/pkg/errors and of
    k8s.io/apimachinery that the package calls, and the errors that come
    back from the operating system and the JSON codec. *)
Inductive error : Type :=
| ErrNotExist (path : string)
| ErrExternal (msg : string)
| New (msg : string)
| Errorf (format : string) (args : list fmtarg)
| Wrap (cause : error) (msg : string)
| Wrapf (cause : error) (format : string) (args : list fmtarg)
| NewNotFound (group resource name : string).

Definition os_IsNotExist (e : option error) : bool :=
  match e with
  | Some (ErrNotExist _) => true
  | _ => false
  end.

(** [xpresource.Ignore(is, err)]. *)
Definition Ignore (is_ : option error -> bool) (e : option error) : option error :=
  if is_ e then None else e.

Inductive panic : Type :=
| NilDereference
| NilMapAssignment.

Inductive outcome (A : Type) : Type :=
| Returns (a : A)
| Panics (p : panic).
Arguments Returns {A} a.
Arguments Panics {A} p.

(** ** A state monad with panics *)

Definition M (S A : Type) : Type := S -> outcome A * S.

Definition ret {S A : Type} (a : A) : M S A := fun s => (Returns a, s).

Definition bind {S A B : Type} (m : M S A) (k : A -> M S B) : M S B :=
  fun s =>
    match m s with
    | (Returns a, s') => k a s'
    | (Panics p, s') => (Panics p, s')
    end.

Notation "'do' x <- c ; k" := (bind c (fun x => k))
  (at level 10, x name, c at level 100, k at level 200).

Definition get {S : Type} : M S S := fun s => (Returns s, s).
Definition modify {S : Type} (f : S -> S) : M S unit := fun s => (Returns tt, f s).
Definition raise {S A : Type} (p : panic) : M S A := fun s => (Panics p, s).

(** [p != nil]. *)
Definition nonnil {A : Type} (p : option A) : bool :=
  match p with
  | Some _ => true
  | None => false
  end.

(** [*p]: a nil pointer panics. *)
Definition deref {S A : Type} (p : option A) : M S A :=
  match p with
  | Some a => ret a
  | None => raise NilDereference
  end.

(** [defer d] placed before [body]: [d] runs when the function returns,
    and also while it panics. *)
Definition defer {S A : Type} (d : M S unit) (body : M S A) : M S A :=
  fun s =>
    match body s with
    | (Returns a, s') =>
        match d s' with
        | (Returns _, s'') => (Returns a, s'')
        | (Panics p, s'') => (Panics p, s'')
        end
    | (Panics p, s') => (Panics p, snd (d s'))
    end.

(** ** operation.go *)

Record Operation : Type := mkOperation {
  Type_ : string;
  StartTime : option Time;
  EndTime : option Time;
  err : option error
}.

(** The zero [Operation]. *)
Definition Operation_zero : Operation :=
  {| Type_ := ""; StartTime := None; EndTime := None; err := None |}.

(** The three methods have VALUE receivers, [func (o Operation) ...]: each
    call copies the caller's record into the callee's frame, the body
    assigns to that copy, and nothing is returned. [*_frame] is the copy
    when the body ends; the method itself, below, gives the caller
    nothing back. *)
Definition MarkStart_frame (o : Operation) (t : string) (now : Time) : Operation :=
  let o := {| Type_ := t; StartTime := StartTime o; EndTime := EndTime o; err := err o |} in
  let o := {| Type_ := Type_ o; StartTime := Some now; EndTime := EndTime o; err := err o |} in
  let o := {| Type_ := Type_ o; StartTime := StartTime o; EndTime := None; err := err o |} in
  {| Type_ := Type_ o; StartTime := StartTime o; EndTime := EndTime o; err := None |}.

Definition MarkEnd_frame (o : Operation) (now : Time) : Operation :=
  {| Type_ := Type_ o; StartTime := StartTime o; EndTime := Some now; err := err o |}.

Definition Flush_frame (o : Operation) : Operation :=
  let o := {| Type_ := ""; StartTime := StartTime o; EndTime := EndTime o; err := err o |} in
  let o := {| Type_ := Type_ o; StartTime := None; EndTime := EndTime o; err := err o |} in
  let o := {| Type_ := Type_ o; StartTime := StartTime o; EndTime := None; err := err o |} in
  {| Type_ := Type_ o; StartTime := StartTime o; EndTime := EndTime o; err := None |}.

(** The lifecycle states of the specification, read off a record: Idle is
    the zero record, Running has a start and no end, Finished has both. *)
Definition isIdle (o : Operation) : bool :=
  String.eqb (Type_ o) "" && negb (nonnil (StartTime o))
  && negb (nonnil (EndTime o)) && negb (nonnil (err o)).

Definition isRunning (o : Operation) : bool :=
  nonnil (StartTime o) && negb (nonnil (EndTime o)).

Definition isFinished (o : Operation) : bool :=
  nonnil (StartTime o) && nonnil (EndTime o).

(** ** The operating system under a workspace *)

(** An [exec.Cmd] as built by [exec.CommandContext] and the assignment of
    [cmd.Dir]. *)
Record Cmd : Type := mkCmd {
  cmd_ctx : Context;
  Path : string;
  Args : list string;
  Dir : string
}.

(** What [cmd.Run] leaves behind: its error and the two buffers. *)
Record Completed : Type := mkCompleted {
  run_err : option error;
  Stdout : string;
  Stderr : string
}.

Inductive Syscall : Type :=
| SysMkdirAll (path : string)
| SysStat (path : string)
| SysReadFile (path : string)
| SysWriteFile (path : string).

(** The machine the package runs on: the files by path, the failures the
    system calls may report, the terraform binary as a function of its
    command line and the files, the clock, the directory of temporary
    files, and the processes started so far (latest first). *)
Record OS : Type := mkOS {
  files : gmap string string;
  faults : Syscall -> option error;
  terraform : Cmd -> gmap string string -> Completed * gmap string string;
  now : Time;
  TempDir : string;
  launched : list Cmd
}.

Definition with_files (fs : gmap string string) (os : OS) : OS :=
  {| files := fs; faults := faults os; terraform := terraform os; now := now os;
     TempDir := TempDir os; launched := launched os |}.

Definition with_launched (c : Cmd) (os : OS) : OS :=
  {| files := files os; faults := faults os; terraform := terraform os; now := now os;
     TempDir := TempDir os; launched := c :: launched os |}.

Definition filepath_Join (dir name : string) : string := dir +:+ "/" +:+ name.

(** [cmd.Run()] on the machine. *)
Definition os_Run (c : Cmd) (os : OS) : Completed * OS :=
  let '(r, fs) := terraform os c (files os) in
  (r, with_files fs (with_launched c os)).

Definition os_ReadFile (path : string) (os : OS) : string * option error :=
  match faults os (SysReadFile path) with
  | Some e => ("", Some e)
  | None =>
      match files os !! path with
      | Some raw => (raw, None)
      | None => ("", Some (ErrNotExist path))
      end
  end.

Definition os_WriteFile (path data : string) (os : OS) : option error * OS :=
  match faults os (SysWriteFile path) with
  | Some e => (Some e, os)
  | None => (None, with_files (<[path := data]> (files os)) os)
  end.

Definition os_MkdirAll (path : string) (os : OS) : option error :=
  faults os (SysMkdirAll path).

Definition os_Stat (path : string) (os : OS) : option error :=
  match faults os (SysStat path) with
  | Some e => Some e
  | None =>
      match files os !! path with
      | Some _ => None
      | None => Some (ErrNotExist path)
      end
  end.

(** ** pkg/json: the state file and the codec *)

(** A value held in a [map[string]interface{}]. *)
Inductive Value : Type :=
| VNil
| VBool (b : bool)
| VNumber (f : float)
| VString (s : string)
| VList (l : list Value)
| VMap (m : gmap string Value).

(** A Go map stored in an [interface{}]; the nil map has no entries. *)
Definition of_map (m : option (gmap string Value)) : Value :=
  match m with
  | Some m => VMap m
  | None => VNil
  end.

Definition of_strings (m : gmap string string) : Value := VMap (VString <$> m).

(** The struct that [Workspace.Plan] declares for the change summary. *)
Record plan_changes : Type := mkChanges {
  Add : float;
  Change : float
}.
Record plan : Type := mkPlan {
  Changes : plan_changes
}.
Definition plan_zero : plan := {| Changes := {| Add := 0%float; Change := 0%float |} |}.

Module json.

Record InstanceObjectStateV4 : Type := mkInstance {
  SchemaVersion : Z;
  PrivateRaw : option string;
  AttributesRaw : string
}.

Record ResourceStateV4 : Type := mkResource {
  Mode : string;
  Type_ : string;
  Name : string;
  ProviderConfig : string;
  Instances : list InstanceObjectStateV4
}.

(** Modelled from the spec: the declaration of [StateV4] is not among
    the sources; these are the fields the spec's StateFile lists and the
    ones [TFState] assigns. *)
Record StateV4 : Type := mkStateV4 {
  TerraformVersion : string;
  Lineage : string;
  Resources : list ResourceStateV4
}.

(** [json.StateV4{}]. *)
Definition StateV4_zero : StateV4 :=
  {| TerraformVersion := ""; Lineage := ""; Resources := [] |}.

(** [json.JSParser] and [json.NewStateV4], which the package imports:
    [Marshal] and [Unmarshal] at each type they are called at. An
    [Unmarshal] takes the record its pointer argument holds and gives
    back what it holds afterwards. *)
Class Codec : Type := mkCodec {
  NewStateV4 : StateV4;
  Marshal : Value -> string * option error;
  MarshalState : StateV4 -> string * option error;
  UnmarshalState : string -> StateV4 -> StateV4 * option error;
  UnmarshalPlan : string -> plan -> plan * option error
}.

End json.

(** ** package strings *)

Fixpoint HasPrefix (s prefix : string) : bool :=
  match prefix, s with
  | EmptyString, _ => true
  | String c p, String d s' => Ascii.eqb c d && HasPrefix s' p
  | String _ _, EmptyString => false
  end.

(** [strings.Contains(s, substr)]. *)
Fixpoint Contains (s substr : string) : bool :=
  HasPrefix s substr ||
  match s with
  | EmptyString => false
  | String _ s' => Contains s' substr
  end.

(** [strings.Split(s, sep)] for a separator that is not empty: [skip]
    counts the bytes of a separator just found that are still to be
    dropped, and the head of the result is the piece being read. *)
Fixpoint split_from (sep : string) (skip : nat) (s : string) : list string :=
  match s with
  | EmptyString => [EmptyString]
  | String c s' =>
      match skip with
      | S k => split_from sep k s'
      | O =>
          if HasPrefix s sep then EmptyString :: split_from sep (String.length sep - 1) s'
          else
            match split_from sep 0 s' with
            | piece :: rest => String c piece :: rest
            | [] => [String c EmptyString]
            end
      end
  end.

Definition Split (s sep : string) : list string := split_from sep 0 s.

Definition newline : string := String (ascii_of_nat 10) EmptyString.
Definition quote : string := String (ascii_of_nat 34) EmptyString.

(** The literal [`"type":"change_summary"`]. *)
Definition change_summary_marker : string :=
  quote +:+ "type" +:+ quote +:+ ":" +:+ quote +:+ "change_summary" +:+ quote.

(** ** workspace.go *)

(** [type EnqueueFn func()]: a callback is known by a number, nil is
    [None]; a call is recorded on the machine. *)
Definition EnqueueFn : Type := option nat.

(** [LastOperation *Operation]: the record it points to is reached through
    this field alone, so it is kept in place. *)
Record Workspace : Type := mkWorkspace {
  LastOperation : option Operation;
  Enqueue : EnqueueFn;
  dir : string
}.

(** The two [go func() { ... }()] statements, with the context each
    closure captures. *)
Inductive Goroutine : Type :=
| GoApply (ctx : Context)
| GoDestroy (ctx : Context).

(** What a method of [*Workspace] can reach: the record behind its
    receiver, the operating system, the goroutines started and not yet
    run (latest first) and the callbacks called (latest first). *)
Record Machine : Type := mkMachine {
  recv : Workspace;
  os : OS;
  goroutines : list Goroutine;
  enqueued : list nat
}.

Definition stillRunning : string := "%s operation that started at %s is still running".

(** The spec's [Busy]. *)
Definition isBusy (e : option error) : bool :=
  match e with
  | Some (Errorf format _) => String.eqb format stillRunning
  | _ => false
  end.

Record ApplyResult : Type := mkApplyResult {
  ar_State : option json.StateV4
}.

Record RefreshResult : Type := mkRefreshResult {
  IsApplying : bool;
  IsDestroying : bool;
  State : option json.StateV4;
  LastOperationError : option error
}.

Record PlanResult : Type := mkPlanResult {
  Exists : bool;
  UpToDate : bool
}.

Definition ApplyResult_zero : ApplyResult := {| ar_State := None |}.
Definition RefreshResult_zero : RefreshResult :=
  {| IsApplying := false; IsDestroying := false; State := None; LastOperationError := None |}.
Definition PlanResult_zero : PlanResult := {| Exists := false; UpToDate := false |}.

Definition set_LastOperation (o : option Operation) (m : Machine) : Machine :=
  {| recv := {| LastOperation := o; Enqueue := Enqueue (recv m); dir := dir (recv m) |};
     os := os m; goroutines := goroutines m; enqueued := enqueued m |}.

(** [*w.LastOperation]. *)
Definition LastOperation_ : M Machine Operation :=
  do m <- get; deref (LastOperation (recv m)).

(** [w.LastOperation.MarkStart(t)], [.MarkEnd()] and [.Flush()]: the
    pointer is dereferenced and the record is passed by value; what the
    body assigns stays in its frame. *)
Definition MarkStart (t : string) : M Machine unit :=
  do o <- LastOperation_;
  do m <- get;
  let _ := MarkStart_frame o t (now (os m)) in
  ret tt.

Definition MarkEnd : M Machine unit :=
  do o <- LastOperation_;
  do m <- get;
  let _ := MarkEnd_frame o (now (os m)) in
  ret tt.

(** [Flush] on a receiver that was copied earlier, as [defer] does. *)
Definition Flush (o : Operation) : M Machine unit :=
  let _ := Flush_frame o in
  ret tt.

(** [w.LastOperation.Err = e]: an assignment through the pointer. (The
    struct declares the field as [err].) *)
Definition set_Err (e : option error) : M Machine unit :=
  do o <- LastOperation_;
  modify (set_LastOperation
            (Some {| Type_ := Type_ o; StartTime := StartTime o; EndTime := EndTime o; err := e |})).

(** [go func() { ... }()]. *)
Definition go_ (g : Goroutine) : M Machine unit :=
  modify (fun m => {| recv := recv m; os := os m; goroutines := g :: goroutines m;
                      enqueued := enqueued m |}).

(** [cmd.Run()]. *)
Definition Run (c : Cmd) : M Machine Completed :=
  fun m =>
    let '(r, os') := os_Run c (os m) in
    (Returns r, {| recv := recv m; os := os'; goroutines := goroutines m; enqueued := enqueued m |}).

Definition ReadFile (path : string) : M Machine (string * option error) :=
  do m <- get; ret (os_ReadFile path (os m)).

(** [w.Enqueue()]. *)
Definition call_Enqueue : M Machine unit :=
  do m <- get;
  do f <- deref (Enqueue (recv m));
  modify (fun m => {| recv := recv m; os := os m; goroutines := goroutines m;
                      enqueued := f :: enqueued m |}).

Definition terraform_cmd (ctx : Context) (args : list string) (d : string) : Cmd :=
  {| cmd_ctx := ctx; Path := "terraform"; Args := args; Dir := d |}.

Definition apply_args : list string :=
  ["apply"; "-auto-approve"; "-input=false"; "-detailed-exitcode"; "-json"].
Definition destroy_args : list string :=
  ["destroy"; "-auto-approve"; "-input=false"; "-detailed-exitcode"; "-json"].
Definition refresh_args : list string :=
  ["apply"; "-refresh-only"; "-auto-approve"; "-input=false"; "-detailed-exitcode"; "-json"].
Definition plan_args : list string :=
  ["plan"; "-refresh=false"; "-input=false"; "-detailed-exitcode"; "-json"].

(** The error of the busy guard: its operands are evaluated first, and
    [StartTime.String()] dereferences [StartTime]. *)
Definition still_running (o : Operation) : M Machine error :=
  do start <- deref (StartTime o);
  ret (Errorf stillRunning [ArgString (Type_ o); ArgTime start]).

Section Workspace.

Context {codec : json.Codec}.

(** The body of the goroutine that [ApplyAsync] starts, and of the one
    that [Destroy] starts. *)
Definition run_goroutine (g : Goroutine) : M Machine unit :=
  match g with
  | GoApply ctx =>
      do m <- get;
      do r <- Run (terraform_cmd ctx apply_args (dir (recv m)));
      do _ <- match run_err r with
              | Some e => set_Err (Some (Wrapf e "cannot apply: %s" [ArgString (Stderr r)]))
              | None => ret tt
              end;
      do _ <- MarkEnd;
      do _ <- call_Enqueue;
      ret tt
  | GoDestroy ctx =>
      do m <- get;
      do r <- Run (terraform_cmd ctx destroy_args (dir (recv m)));
      do _ <- match run_err r with
              | Some e => set_Err (Some (Wrapf e "cannot destroy: %s" [ArgString (Stderr r)]))
              | None => ret tt
              end;
      do _ <- MarkEnd;
      do _ <- call_Enqueue;
      ret tt
  end.

Definition ApplyAsync (_ : Context) : M Machine (option error) :=
  do o <- LastOperation_;
  if negb (nonnil (EndTime o)) then
    do e <- still_running o;
    ret (Some e)
  else
    do _ <- MarkStart "apply";
    do o <- LastOperation_;
    do start <- deref (StartTime o);
    let ctx := context_WithDeadline context_TODO (Time_Add start defaultAsyncTimeout) in
    do _ <- go_ (GoApply ctx);
    ret None.

Definition Apply (ctx : Context) : M Machine (ApplyResult * option error) :=
  do o <- LastOperation_;
  if negb (nonnil (EndTime o)) then
    do e <- still_running o;
    ret (ApplyResult_zero, Some e)
  else
    do m <- get;
    do r <- Run (terraform_cmd ctx apply_args (dir (recv m)));
    match run_err r with
    | Some e => ret (ApplyResult_zero, Some (Wrapf e "cannot apply: %s" [ArgString (Stderr r)]))
    | None =>
        do re <- ReadFile (filepath_Join (dir (recv m)) "terraform.tfstate");
        match snd re with
        | Some e => ret (ApplyResult_zero, Some (Wrap e "cannot read terraform state file"))
        | None =>
            let se := json.UnmarshalState (fst re) json.StateV4_zero in
            match snd se with
            | Some e => ret (ApplyResult_zero, Some (Wrap e "cannot unmarshal tfstate file"))
            | None => ret ({| ar_State := Some (fst se) |}, None)
            end
        end
    end.

Definition Destroy (_ : Context) : M Machine (option error) :=
  do o <- LastOperation_;
  if String.eqb (Type_ o) "destroy" then
    ret None
  else if negb (String.eqb (Type_ o) "destroy") && negb (nonnil (EndTime o)) then
    do e <- still_running o;
    ret (Some e)
  else
    do _ <- MarkStart "destroy";
    do o <- LastOperation_;
    do start <- deref (StartTime o);
    let ctx := context_WithDeadline context_TODO (Time_Add start defaultAsyncTimeout) in
    do _ <- go_ (GoDestroy ctx);
    ret None.

(** [Refresh] past its first [if]: run the refresh-only apply and read
    the state back. *)
Definition refresh_run (ctx : Context) : M Machine (RefreshResult * option error) :=
  do m <- get;
  do r <- Run (terraform_cmd ctx refresh_args (dir (recv m)));
  match run_err r with
  | Some e => ret (RefreshResult_zero, Some (Wrapf e "cannot refresh: %s" [ArgString (Stderr r)]))
  | None =>
      do re <- ReadFile (filepath_Join (dir (recv m)) "terraform.tfstate");
      match snd re with
      | Some e => ret (RefreshResult_zero, Some (Wrap e "cannot read terraform state file"))
      | None =>
          let se := json.UnmarshalState (fst re) json.StateV4_zero in
          match snd se with
          | Some e => ret (RefreshResult_zero, Some (Wrap e "cannot unmarshal tfstate file"))
          | None =>
              ret ({| IsApplying := false; IsDestroying := false; State := Some (fst se);
                      LastOperationError := None |}, None)
          end
      end
  end.

Definition Refresh (ctx : Context) : M Machine (RefreshResult * option error) :=
  do o <- LastOperation_;
  if nonnil (StartTime o) then
    if negb (nonnil (EndTime o)) then
      ret ({| IsApplying := String.eqb (Type_ o) "apply";
              IsDestroying := String.eqb (Type_ o) "destroy";
              State := None; LastOperationError := None |}, None)
    else
      defer (Flush o)
        (do o <- LastOperation_;
         match err o with
         | Some e =>
             ret ({| IsApplying := String.eqb (Type_ o) "apply";
                     IsDestroying := String.eqb (Type_ o) "destroy";
                     State := None;
                     LastOperationError :=
                       Some (Wrapf e "%s operation failed" [ArgString (Type_ o)]) |}, None)
         | None =>
             if String.eqb (Type_ o) "destroy" then
               ret (RefreshResult_zero, Some (NewNotFound "" "" ""))
             else refresh_run ctx
         end)
  else refresh_run ctx.

(** The loop of [Plan] over the lines of the log, with its [break]. *)
Fixpoint find_summary (lines : list string) (line : string) : string :=
  match lines with
  | [] => line
  | l :: rest =>
      if Contains l change_summary_marker then l else find_summary rest line
  end.

Definition Plan (ctx : Context) : M Machine (PlanResult * option error) :=
  do o <- LastOperation_;
  if nonnil (StartTime o) && negb (nonnil (EndTime o)) then
    do e <- still_running o;
    ret (PlanResult_zero, Some e)
  else
    do m <- get;
    do r <- Run (terraform_cmd ctx plan_args (dir (recv m)));
    match run_err r with
    | Some e => ret (PlanResult_zero, Some (Wrapf e "cannot plan: %s" [ArgString (Stderr r)]))
    | None =>
        let line := find_summary (Split (Stdout r) newline) "" in
        if String.eqb line "" then
          ret (PlanResult_zero,
               Some (Errorf "cannot find the change summary line in plan log: %s"
                       [ArgString (Stdout r)]))
        else
          let pe := json.UnmarshalPlan line plan_zero in
          match snd pe with
          | Some e => ret (PlanResult_zero, Some (Wrap e "cannot unmarshal change summary json"))
          | None =>
              let p := fst pe in
              ret ({| Exists := PrimFloat.eqb (Add (Changes p)) 0%float;
                      UpToDate := PrimFloat.eqb (Change (Changes p)) 0%float |}, None)
          end
    end.

End Workspace.

(** ** The reconciled resource and the provider setup *)

(** A [resource.Terraformed] by what its getters return. *)
Record Terraformed : Type := mkTerraformed {
  GetUID : string;
  GetName : string;
  GetTerraformResourceType : string;
  GetAnnotations : gmap string string;
  GetDeletionTimestamp : option Time;
  GetParameters : option (gmap string Value) * option error;
  GetObservation : option (gmap string Value) * option error;
  Conditions : list string
}.

Definition AnnotationKeyExternalName : string := "crossplane.io/external-name".

(** crossplane-runtime's [meta.GetExternalName] and [meta.WasDeleted]. *)
Definition GetExternalName (tr : Terraformed) : string :=
  default "" (GetAnnotations tr !! AnnotationKeyExternalName).

Definition WasDeleted (tr : Terraformed) : bool := nonnil (GetDeletionTimestamp tr).

(** Modelled from the spec: the declaration of [tfcli.TerraformSetup] is
    not among the sources; the spec's ProviderSetup has the fields
    version, source and configuration, and the code reads them as
    [Setup.Version], [Setup.Requirement.Source],
    [Setup.Requirement.Version] and [Setup.Configuration]. *)
Record ProviderRequirement : Type := mkRequirement {
  Source : string;
  req_Version : string
}.

Record TerraformSetup : Type := mkSetup {
  Version : string;
  Requirement : ProviderRequirement;
  Configuration : option (gmap string Value)
}.

Definition TerraformSetup_zero : TerraformSetup :=
  {| Version := ""; Requirement := {| Source := ""; req_Version := "" |}; Configuration := None |}.

(** ** files.go *)

Record FileProducer : Type := mkFileProducer {
  Resource : Terraformed;
  Setup : TerraformSetup;
  parameters : option (gmap string Value);
  observation : option (gmap string Value)
}.

Definition NewFileProducer (tr : Terraformed) : option FileProducer * option error :=
  let '(params, e) := GetParameters tr in
  match e with
  | Some e => (None, Some (Wrap e "cannot get parameters"))
  | None =>
      let '(obs, e) := GetObservation tr in
      match e with
      | Some e => (None, Some (Wrap e "cannot get observation"))
      | None =>
          (Some {| Resource := tr; Setup := TerraformSetup_zero;
                   parameters := params; observation := obs |}, None)
      end
  end.

(** [for k, v := range src { base[k] = v }]; ranging over the nil map
    runs the body no times. *)
Definition range_assign (src : option (gmap string Value)) (base : gmap string Value)
  : gmap string Value :=
  match src with
  | Some m => map_fold (fun k v b => <[k := v]> b) base m
  | None => base
  end.

(** [m[k] = v] on a map that may be nil. *)
Definition map_assign {S : Type} (m : option (gmap string Value)) (k : string) (v : Value)
  : M S (gmap string Value) :=
  match m with
  | Some m => ret (<[k := v]> m)
  | None => raise NilMapAssignment
  end.

Definition set_parameters (p : option (gmap string Value)) (fp : FileProducer) : FileProducer :=
  {| Resource := Resource fp; Setup := Setup fp; parameters := p; observation := observation fp |}.

Section FileProducer.

Context {codec : json.Codec}.

(** [tfcli.AnnotationKeyPrivateRawAttribute], declared outside the
    sources at hand. *)
Variable AnnotationKeyPrivateRawAttribute : string.

Definition TFState : M FileProducer (option json.StateV4 * option error) :=
  do fp <- get;
  let base : gmap string Value := ∅ in
  let base := range_assign (parameters fp) base in
  let base := range_assign (observation fp) base in
  let base := <["id" := VString (GetExternalName (Resource fp))]> base in
  let '(attr, e) := json.Marshal (VMap base) in
  match e with
  | Some e => ret (None, Some (Wrap e "cannot marshal produced state attributes"))
  | None =>
      let privateRaw := GetAnnotations (Resource fp) !! AnnotationKeyPrivateRawAttribute in
      let st := json.NewStateV4 in
      let st := {| json.TerraformVersion := Version (Setup fp);
                   json.Lineage := json.Lineage st;
                   json.Resources := json.Resources st |} in
      let st := {| json.TerraformVersion := json.TerraformVersion st;
                   json.Lineage := GetUID (Resource fp);
                   json.Resources := json.Resources st |} in
      let st :=
        {| json.TerraformVersion := json.TerraformVersion st;
           json.Lineage := json.Lineage st;
           json.Resources :=
             [ {| json.Mode := "managed";
                  json.Type_ := GetTerraformResourceType (Resource fp);
                  json.Name := GetName (Resource fp);
                  json.ProviderConfig :=
                    "provider[" +:+ quote +:+ "registry.terraform.io/"
                      +:+ Source (Requirement (Setup fp)) +:+ quote +:+ "]";
                  json.Instances :=
                    [ {| json.SchemaVersion := 0;
                         json.PrivateRaw := privateRaw;
                         json.AttributesRaw := attr |} ] |} ] |} in
      ret (Some st, None)
  end.

Definition MainTF : M FileProducer (gmap string Value) :=
  do fp <- get;
  do p <- map_assign (parameters fp) "prevent_destroy" (VBool (negb (WasDeleted (Resource fp))));
  do _ <- modify (set_parameters (Some p));
  do fp <- get;
  ret (<["terraform" :=
          VMap {[ "required_providers" :=
                    VMap {[ "tf-provider" :=
                              of_strings (<["source" := Source (Requirement (Setup fp))]>
                                          (<["version" := req_Version (Requirement (Setup fp))]> ∅)) ]} ]}]>
       (<["provider" := VMap {[ "tf-provider" := of_map (Configuration (Setup fp)) ]}]>
       (<["resource" :=
            VMap {[ GetTerraformResourceType (Resource fp) :=
                      VMap {[ GetName (Resource fp) := of_map (parameters fp) ]} ]}]> ∅))).

End FileProducer.

(** ** store.go *)

(** [store sync.Map] holds a [*Workspace] per UID: the registry owns the
    records, and a pointer to one is its key. *)
Record WorkspaceStore : Type := mkWorkspaceStore {
  store : gmap string Workspace;
  setup : TerraformSetup
}.

Definition NewWorkspaceStore (setup : TerraformSetup) : WorkspaceStore :=
  {| store := ∅; setup := setup |}.

(** [ws.store.LoadOrStore(key, val)]. *)
Definition LoadOrStore (key : string) (val : Workspace) (ws : WorkspaceStore)
  : Workspace * bool * WorkspaceStore :=
  match store ws !! key with
  | Some w => (w, true, ws)
  | None => (val, false, {| store := <[key := val]> (store ws); setup := setup ws |})
  end.

Record StoreMachine : Type := mkStoreMachine {
  registry : WorkspaceStore;
  sos : OS
}.

(** A method of the local [fp], run from a function of the store. *)
Definition on_fp {S A : Type} (m : M FileProducer A) (fp : FileProducer)
  : M S (A * FileProducer) :=
  fun s =>
    match m fp with
    | (Returns a, fp') => (Returns (a, fp'), s)
    | (Panics p, _) => (Panics p, s)
    end.

Definition WriteFile (path data : string) : M StoreMachine (option error) :=
  fun s =>
    let '(e, os') := os_WriteFile path data (sos s) in
    (Returns e, {| registry := registry s; sos := os' |}).

Section WorkspaceStore.

Context {codec : json.Codec}.
Variable AnnotationKeyPrivateRawAttribute : string.

(** [if os.IsNotExist(err) { ... }] of [Workspace]: produce the state
    file. [None] is falling through to the statement after the [if]. *)
Definition write_tfstate (d : string) (fp : FileProducer)
  : M StoreMachine (option error * FileProducer) :=
  do sf <- on_fp (TFState AnnotationKeyPrivateRawAttribute) fp;
  let '((s, e), fp) := sf in
  match e, s with
  | Some e, _ => ret (Some (Wrap e "cannot produce tfstate"), fp)
  | None, None => raise NilDereference
  | None, Some s =>
      let '(rawState, e) := json.MarshalState s in
      match e with
      | Some e => ret (Some (Wrap e "cannot marshal state object"), fp)
      | None =>
          do e <- WriteFile (filepath_Join d "terraform.tfstate") rawState;
          match e with
          | Some e => ret (Some (Wrap e "cannot write tfstate file"), fp)
          | None => ret (None, fp)
          end
      end
  end.

(** [func (ws *WorkspaceStore) Workspace(tr, enq)]. The pointer it
    returns is the registry's entry for the UID; the record behind it is
    given. *)
Definition WorkspaceStore_Workspace (tr : Terraformed) (enq : EnqueueFn)
  : M StoreMachine (option Workspace * option error) :=
  do s <- get;
  let d := filepath_Join (TempDir (sos s)) (GetUID tr) in
  match NewFileProducer tr with
  | (_, Some e) => ret (None, Some (Wrap e "cannot create a new file producer"))
  | (None, None) => raise NilDereference
  | (Some fp, None) =>
      match os_MkdirAll d (sos s) with
      | Some e => ret (None, Some (Wrap e "cannot create directory for workspace"))
      | None =>
          let e := os_Stat (filepath_Join d "terraform.tfstate") (sos s) in
          match Ignore os_IsNotExist e with
          | Some e => ret (None, Some (Wrap e "cannot state terraform.tfstate file"))
          | None =>
              do ef <- (if os_IsNotExist e then write_tfstate d fp else ret (None, fp));
              match ef with
              | (Some e, _) => ret (None, Some e)
              | (None, fp) =>
                  do hf <- on_fp MainTF fp;
                  let '(rawHCL, e) := json.Marshal (VMap (fst hf)) in
                  match e with
                  | Some e => ret (None, Some (Wrap e "cannot marshal main hcl object"))
                  | None =>
                      do e <- WriteFile (filepath_Join d "main.tf.json") rawHCL;
                      match e with
                      | Some e => ret (None, Some (Wrap e "cannot write tfstate file"))
                      | None =>
                          do s <- get;
                          let '(w, _, ws') :=
                            LoadOrStore (GetUID tr)
                              {| LastOperation := None; Enqueue := enq; dir := d |}
                              (registry s) in
                          do _ <- modify (fun s => {| registry := ws'; sos := sos s |});
                          ret (Some w, None)
                      end
                  end
              end
          end
      end
  end.

End WorkspaceStore.

(** ** pkg/terraform: the external client *)

Module terraform.

Definition errUnexpectedObject : string :=
  "the managed resource is not an Terraformed resource".

(** An [xpresource.Managed] and the assertion [mg.(resource.Terraformed)]. *)
Inductive Managed : Type :=
| IsTerraformed (tr : Terraformed)
| NotTerraformed.

(** What [e.tf.Observe] returns; its fields are the ones [Observe] reads. *)
Record Observation : Type := mkObservation {
  Exists : bool;
  UpToDate : bool;
  LateInitialized : bool;
  ConnectionDetails : option (gmap string string)
}.

Record ExternalObservation : Type := mkExternalObservation {
  ResourceExists : bool;
  ResourceUpToDate : bool;
  ResourceLateInitialized : bool;
  eo_ConnectionDetails : option (gmap string string)
}.

Definition ExternalObservation_zero : ExternalObservation :=
  {| ResourceExists := false; ResourceUpToDate := false;
     ResourceLateInitialized := false; eo_ConnectionDetails := None |}.

(** [conversion.Adapter], the interface behind [e.tf]: an implementation
    works on a state of its own (its workspace, the provisioner) and on
    the resource it is handed. *)
Class Adapter (T : Type) : Type := mkAdapter {
  tf_Observe : Context -> Terraformed -> T -> (Observation * option error) * Terraformed * T
}.

(** The client and what it works on: the adapter's state, the managed
    resource behind [mg], and the adapter methods called so far (latest
    first). *)
Record external (T : Type) : Type := mkExternal {
  tf : T;
  mg : Managed;
  tf_calls : list string
}.
Arguments tf {T} e.
Arguments mg {T} e.
Arguments tf_calls {T} e.
Arguments mkExternal {T} tf mg tf_calls.

Section External.

Context {T : Type} {adapter : Adapter T}.

(** Modelled from the spec: [meta.GetState] of pkg/meta is not among
    the sources; the spec calls what it reads the prior state of the
    resource, kept in an annotation. *)
Variable AnnotationKeyState : string.

Definition GetState (tr : Terraformed) : string :=
  default "" (GetAnnotations tr !! AnnotationKeyState).

(** [e.tf.Observe(ctx, tr)]. *)
Definition call_Observe (ctx : Context) (tr : Terraformed)
  : M (external T) (Observation * option error) :=
  fun e =>
    let '(r, tr', t') := tf_Observe ctx tr (tf e) in
    (Returns r, {| tf := t'; mg := IsTerraformed tr'; tf_calls := "Observe" :: tf_calls e |}).

(** [tr.SetConditions(xpv1.Available())]. *)
Definition SetConditions (c : string) : M (external T) unit :=
  modify (fun e =>
    match mg e with
    | IsTerraformed tr =>
        {| tf := tf e;
           mg := IsTerraformed
                   {| GetUID := GetUID tr; GetName := GetName tr;
                      GetTerraformResourceType := GetTerraformResourceType tr;
                      GetAnnotations := GetAnnotations tr;
                      GetDeletionTimestamp := GetDeletionTimestamp tr;
                      GetParameters := GetParameters tr;
                      GetObservation := GetObservation tr;
                      Conditions := c :: Conditions tr |};
           tf_calls := tf_calls e |}
    | NotTerraformed => e
    end).

Definition Observe (ctx : Context) : M (external T) (ExternalObservation * option error) :=
  do e <- get;
  match mg e with
  | NotTerraformed => ret (ExternalObservation_zero, Some (New errUnexpectedObject))
  | IsTerraformed tr =>
      if String.eqb (GetExternalName tr) "" && String.eqb (GetState tr) "" then
        ret ({| ResourceExists := false; ResourceUpToDate := false;
                ResourceLateInitialized := false; eo_ConnectionDetails := None |}, None)
      else
        do re <- call_Observe ctx tr;
        let '(res, e) := re in
        match e with
        | Some e => ret (ExternalObservation_zero, Some (Wrap e "cannot check if resource exists"))
        | None =>
            do _ <- (if Exists res then SetConditions "Available" else ret tt);
            ret ({| ResourceExists := Exists res;
                    ResourceUpToDate := UpToDate res;
                    ResourceLateInitialized := LateInitialized res;
                    eo_ConnectionDetails := ConnectionDetails res |}, None)
        end
  end.

End External.

End terraform.

(** ** The statements of the specification, in its own words *)

(** [parameters ⊕ observation ⊕ {id: externalName}], a later operand
    overwriting an earlier one ([∪] keeps the entry of its left operand). *)
Definition merged_attributes (fp : FileProducer) : gmap string Value :=
  {[ "id" := VString (GetExternalName (Resource fp)) ]}
  ∪ (default ∅ (observation fp) ∪ default ∅ (parameters fp)).

(** The [attributesRaw] of a state file: the field of the one instance of
    its one resource. *)
Definition attributesRaw (st : json.StateV4) : option string :=
  match json.Resources st with
  | [r] =>
      match json.Instances r with
      | [i] => Some (json.AttributesRaw i)
      | _ => None
      end
  | _ => None
  end.




(** Every workspace of the registry has a nil [LastOperation]. *)
Definition all_unassigned (ws : WorkspaceStore) : Prop :=
  forall uid w, store ws !! uid = Some w -> LastOperation w = None.

(** The machine after [go func() { ... }()]. *)
Definition spawned (g : Goroutine) (m : Machine) : Machine :=
  {| recv := recv m; os := os m; goroutines := g :: goroutines m; enqueued := enqueued m |}.

Definition async_deadline (start : Time) : Context :=
  Some (Time_Add start defaultAsyncTimeout).

(** ** Concrete machines and resources for the examples *)

Definition sample_state : json.StateV4 :=
  {| json.TerraformVersion := "1.0.5"; json.Lineage := ""; json.Resources := [] |}.

(** A stand-in codec: an object is rendered as the list of its keys, and
    the change summary is read by looking for the two zero counts. *)
Definition sample_Marshal (v : Value) : string * option error :=
  match v with
  | VMap m => ("{" +:+ String.concat "," (map_to_list m).*1 +:+ "}", None)
  | _ => ("null", None)
  end.

Definition sample_UnmarshalPlan (line : string) (p : plan) : plan * option error :=
  ({| Changes :=
        {| Add := if Contains line (quote +:+ "add" +:+ quote +:+ ":0") then 0%float else 1%float;
           Change := if Contains line (quote +:+ "change" +:+ quote +:+ ":0") then 0%float else 1%float |} |},
   None).

Definition sample_codec : json.Codec :=
  {| json.NewStateV4 := {| json.TerraformVersion := ""; json.Lineage := ""; json.Resources := [] |};
     json.Marshal := sample_Marshal;
     json.MarshalState := fun st => (json.Lineage st, None);
     json.UnmarshalState := fun raw st => (sample_state, None);
     json.UnmarshalPlan := sample_UnmarshalPlan |}.

Definition sample_summary : string :=
  "{" +:+ quote +:+ "type" +:+ quote +:+ ":" +:+ quote +:+ "change_summary" +:+ quote +:+ ","
      +:+ quote +:+ "changes" +:+ quote +:+ ":{"
      +:+ quote +:+ "add" +:+ quote +:+ ":0,"
      +:+ quote +:+ "change" +:+ quote +:+ ":1}}".

(** A terraform that always succeeds; [plan] logs a version line and a
    change summary with nothing to add and one change. *)
Definition sample_terraform (c : Cmd) (fs : gmap string string)
  : Completed * gmap string string :=
  match Args c with
  | "plan" :: _ =>
      ({| run_err := None;
          Stdout := "{" +:+ quote +:+ "type" +:+ quote +:+ ":" +:+ quote +:+ "version" +:+ quote +:+ "}"
                      +:+ newline +:+ sample_summary +:+ newline;
          Stderr := "" |}, fs)
  | _ => ({| run_err := None; Stdout := ""; Stderr := "" |},
          <[filepath_Join (Dir c) "terraform.tfstate" := "{}"]> fs)
  end.

(** A terraform whose log has no change summary. *)
Definition silent_terraform (c : Cmd) (fs : gmap string string)
  : Completed * gmap string string :=
  ({| run_err := None; Stdout := "Error"; Stderr := "" |}, fs).

Definition sample_os : OS :=
  {| files := ∅; faults := fun _ => None; terraform := sample_terraform; now := 1000%Z;
     TempDir := "/tmp"; launched := [] |}.

Definition silent_os : OS :=
  {| files := ∅; faults := fun _ => None; terraform := silent_terraform; now := 1000%Z;
     TempDir := "/tmp"; launched := [] |}.

Definition machine_with (o : option Operation) : Machine :=
  {| recv := {| LastOperation := o; Enqueue := Some 0; dir := "/tmp/uid-1" |};
     os := sample_os; goroutines := []; enqueued := [] |}.

Definition op_running (t : string) : Operation :=
  {| Type_ := t; StartTime := Some 10%Z; EndTime := None; err := None |}.

Definition op_running_at (t : string) (start : Time) : Operation :=
  {| Type_ := t; StartTime := Some start; EndTime := None; err := None |}.

Definition op_finished (t : string) : Operation :=
  {| Type_ := t; StartTime := Some 10%Z; EndTime := Some 20%Z; err := None |}.

Definition sample_setup : TerraformSetup :=
  {| Version := "1.0.5";
     Requirement := {| Source := "hashicorp/aws"; req_Version := "3.56.0" |};
     Configuration := Some {[ "region" := VString "us-east-1" ]} |}.

Definition sample_resource : Terraformed :=
  {| GetUID := "uid-1"; GetName := "bucket"; GetTerraformResourceType := "aws_s3_bucket";
     GetAnnotations := {[ AnnotationKeyExternalName := "my-bucket" ]};
     GetDeletionTimestamp := None;
     GetParameters := (Some {[ "acl" := VString "private"; "arn" := VString "stale" ]}, None);
     GetObservation := (Some {[ "arn" := VString "arn:aws:s3:::my-bucket" ]}, None);
     Conditions := [] |}.

(** A resource that was never created: no external name, no state. *)
Definition fresh_resource : Terraformed :=
  {| GetUID := "uid-2"; GetName := "bucket"; GetTerraformResourceType := "aws_s3_bucket";
     GetAnnotations := ∅;
     GetDeletionTimestamp := None;
     GetParameters := (Some {[ "acl" := VString "private" ]}, None);
     GetObservation := (Some ∅, None);
     Conditions := [] |}.

Definition sample_producer : FileProducer :=
  {| Resource := sample_resource; Setup := sample_setup;
     parameters := fst (GetParameters sample_resource);
     observation := fst (GetObservation sample_resource) |}.

Definition sample_store_machine : StoreMachine :=
  {| registry := NewWorkspaceStore sample_setup; sos := sample_os |}.

(** An adapter that counts its calls and reports an up-to-date resource. *)
Definition counting_adapter : terraform.Adapter nat :=
  {| terraform.tf_Observe := fun _ tr n =>
       ({| terraform.Exists := true; terraform.UpToDate := true;
           terraform.LateInitialized := false; terraform.ConnectionDetails := None |},
        None, tr, S n) |}.

(** ** The process discipline of workspace.go *)

(** The flags every invocation of the provisioner carries. *)
Definition fixed_flags : list string := ["-input=false"; "-detailed-exitcode"; "-json"].

(** A command of workspace [w]: the terraform binary, run in the
    directory of the workspace, with the fixed flags among its arguments. *)
Definition disciplined (w : Workspace) (c : Cmd) : Prop :=
  Path c = "terraform" /\ Dir c = dir w /\ forall f, In f fixed_flags -> In f (Args c).

(** What a synchronous operation may do to the machine: nothing to the
    workspace record, the goroutines and the callbacks, and at most one
    process, of the given arguments, under the caller's context. *)
Definition at_most_one_run (ctx : Context) (args : list string) (m m' : Machine) : Prop :=
  goroutines m' = goroutines m
  /\ enqueued m' = enqueued m
  /\ (os m' = os m
      \/ launched (os m') = terraform_cmd ctx args (dir (recv m)) :: launched (os m)).

(** The command that the body of a goroutine runs, and the format under
    which it parks the error of a failed run. *)
Definition goroutine_cmd (g : Goroutine) (d : string) : Cmd :=
  match g with
  | GoApply ctx => terraform_cmd ctx apply_args d
  | GoDestroy ctx => terraform_cmd ctx destroy_args d
  end.

Definition goroutine_format (g : Goroutine) : string :=
  match g with
  | GoApply _ => "cannot apply: %s"
  | GoDestroy _ => "cannot destroy: %s"
  end.

(** The Operation with which [Refresh] goes on to the provisioner: never
    started, or ended without error and with a type other than destroy. *)
Definition refreshable (o : Operation) : bool :=
  negb (nonnil (StartTime o))
  || (nonnil (EndTime o) && negb (nonnil (err o)) && negb (String.eqb (Type_ o) "destroy")).

(** What identifies the state of a workspace apart from the error of its
    Operation: the type and the two times of the Operation, if there is
    one. *)
Definition lifecycle (w : Workspace) : option (string * option Time * option Time) :=
  match LastOperation w with
  | Some o => Some (Type_ o, StartTime o, EndTime o)
  | None => None
  end.

Definition same_workspace (w w' : Workspace) : Prop :=
  dir w' = dir w /\ Enqueue w' = Enqueue w /\ lifecycle w' = lifecycle w.

(** ** store.go: Remove *)

(** [p] is [d] or lies under it. *)
Definition under (d p : string) : bool := String.eqb p d || HasPrefix p (d +:+ "/").

Section Remove.

(** What [os.RemoveAll] reports when it fails on a path, and the files it
    leaves behind then; [None] is a removal that goes through. *)
Variable RemoveAll_fails : string -> gmap string string -> option (error * gmap string string).

(** [os.RemoveAll(path)]: the path and everything under it; the empty
    path removes nothing. *)
Definition os_RemoveAll (path : string) (os : OS) : option error * OS :=
  if String.eqb path "" then (None, os)
  else
    match RemoveAll_fails path (files os) with
    | Some (e, fs) => (Some e, with_files fs os)
    | None => (None, with_files (filter (fun kv => under path kv.1 = false) (files os)) os)
    end.

(** [func (ws *WorkspaceStore) Remove(obj)], of the [obj.GetUID()] it reads. *)
Definition WorkspaceStore_Remove (uid : string) : M StoreMachine (option error) :=
  do s <- get;
  match store (registry s) !! uid with
  | None => ret None
  | Some w =>
      let '(e, os') := os_RemoveAll (dir w) (sos s) in
      do _ <- modify (fun s => {| registry := registry s; sos := os' |});
      match e with
      | Some e => ret (Some (Wrap e "cannot remove workspace folder"))
      | None =>
          do _ <- modify (fun s =>
                 {| registry := {| store := delete uid (store (registry s));
                                   setup := setup (registry s) |};
                    sos := sos s |});
          ret None
      end
  end.

End Remove.

(** ** pkg/terraform: Create, Update and Delete *)

(** [errors.Wrap(err, msg)], which is nil for a nil [err]. *)
Definition errors_Wrap (e : option error) (msg : string) : option error :=
  match e with
  | Some c => Some (Wrap c msg)
  | None => None
  end.

Module verbs.

(** [managed.ExternalUpdate] and [managed.ExternalCreation]. *)
Record ExternalUpdate : Type := mkExternalUpdate {
  eu_ConnectionDetails : option (gmap string string)
}.

Record ExternalCreation : Type := mkExternalCreation {
  ec_ConnectionDetails : option (gmap string string)
}.

(** The methods of [conversion.Adapter] that write: what [CreateOrUpdate]
    returns is known by the connection details [Update] reads off it, and
    of [Delete] the caller keeps the error alone. *)
Class Writer (T : Type) : Type := mkWriter {
  tf_CreateOrUpdate :
    Context -> Terraformed -> T -> (option (gmap string string) * option error) * Terraformed * T;
  tf_Delete : Context -> Terraformed -> T -> option error * Terraformed * T
}.

Section Verbs.

Context {T : Type} {writer : Writer T}.

(** [e.tf.CreateOrUpdate(ctx, tr)] and [e.tf.Delete(ctx, tr)]. *)
Definition call_CreateOrUpdate (ctx : Context) (tr : Terraformed)
  : M (terraform.external T) (option (gmap string string) * option error) :=
  fun e =>
    let '(r, tr', t') := tf_CreateOrUpdate ctx tr (terraform.tf e) in
    (Returns r, {| terraform.tf := t'; terraform.mg := terraform.IsTerraformed tr';
                   terraform.tf_calls := "CreateOrUpdate" :: terraform.tf_calls e |}).

Definition call_Delete (ctx : Context) (tr : Terraformed)
  : M (terraform.external T) (option error) :=
  fun e =>
    let '(r, tr', t') := tf_Delete ctx tr (terraform.tf e) in
    (Returns r, {| terraform.tf := t'; terraform.mg := terraform.IsTerraformed tr';
                   terraform.tf_calls := "Delete" :: terraform.tf_calls e |}).

Definition Update (ctx : Context) : M (terraform.external T) (ExternalUpdate * option error) :=
  do e <- get;
  match terraform.mg e with
  | terraform.NotTerraformed =>
      ret ({| eu_ConnectionDetails := None |}, Some (New terraform.errUnexpectedObject))
  | terraform.IsTerraformed tr =>
      do re <- call_CreateOrUpdate ctx tr;
      let '(res, e) := re in
      match e with
      | Some e => ret ({| eu_ConnectionDetails := None |}, Some (Wrap e "failed to update"))
      | None => ret ({| eu_ConnectionDetails := res |}, None)
      end
  end.

Definition Create (ctx : Context) : M (terraform.external T) (ExternalCreation * option error) :=
  do ue <- Update ctx;
  let '(u, e) := ue in
  ret ({| ec_ConnectionDetails := eu_ConnectionDetails u |}, e).

Definition Delete (ctx : Context) : M (terraform.external T) (option error) :=
  do e <- get;
  match terraform.mg e with
  | terraform.NotTerraformed => ret (Some (New terraform.errUnexpectedObject))
  | terraform.IsTerraformed tr =>
      do e <- call_Delete ctx tr;
      ret (errors_Wrap e "failed to delete")
  end.

End Verbs.

End verbs.

(** ** More concrete machines for the examples *)

(** A terraform that always fails. *)
Definition failing_terraform (c : Cmd) (fs : gmap string string)
  : Completed * gmap string string :=
  ({| run_err := Some (ErrExternal "exit status 1"); Stdout := ""; Stderr := "boom" |}, fs).

Definition failing_machine (o : option Operation) : Machine :=
  {| recv := {| LastOperation := o; Enqueue := Some 0; dir := "/tmp/uid-1" |};
     os := {| files := ∅; faults := fun _ => None; terraform := failing_terraform;
              now := 1000%Z; TempDir := "/tmp"; launched := [] |};
     goroutines := []; enqueued := [] |}.

Definition op_failed (t : string) : Operation :=
  {| Type_ := t; StartTime := Some 10%Z; EndTime := Some 20%Z;
     err := Some (ErrExternal "exit status 1") |}.

(** A resource whose parameters are the nil map, and one whose
    parameters cannot be read. *)
Definition nil_resource : Terraformed :=
  {| GetUID := "uid-3"; GetName := "bucket"; GetTerraformResourceType := "aws_s3_bucket";
     GetAnnotations := ∅; GetDeletionTimestamp := None;
     GetParameters := (None, None); GetObservation := (None, None);
     Conditions := [] |}.

Definition broken_resource : Terraformed :=
  {| GetUID := "uid-4"; GetName := "bucket"; GetTerraformResourceType := "aws_s3_bucket";
     GetAnnotations := ∅; GetDeletionTimestamp := None;
     GetParameters := (None, Some (ErrExternal "json: unsupported type"));
     GetObservation := (None, None);
     Conditions := [] |}.

(** A machine where the state file of [nil_resource] is already there. *)
Definition stocked_store_machine : StoreMachine :=
  {| registry := NewWorkspaceStore sample_setup;
     sos := with_files {[ "/tmp/uid-3/terraform.tfstate" := "{}" ]} sample_os |}.

(** A registry with one workspace, and its two files. *)
Definition registered_store_machine : StoreMachine :=
  {| registry := {| store := {[ "uid-1" := {| LastOperation := None; Enqueue := Some 0;
                                              dir := "/tmp/uid-1" |} ]};
                    setup := sample_setup |};
     sos := with_files {[ "/tmp/uid-1/terraform.tfstate" := "{}";
                          "/tmp/uid-1/main.tf.json" := "{}";
                          "/tmp/uid-10/main.tf.json" := "{}" ]} sample_os |}.

Definition RemoveAll_succeeds (path : string) (fs : gmap string string)
  : option (error * gmap string string) := None.

(** A writing adapter that counts its calls; its [Delete] fails. *)
Definition counting_writer : verbs.Writer nat :=
  {| verbs.tf_CreateOrUpdate := fun _ tr n =>
       (Some {[ "endpoint" := "s3.amazonaws.com" ]}, None, tr, S n);
     verbs.tf_Delete := fun _ tr n => (Some (ErrExternal "still in use"), tr, S n) |}.

Definition external_of (mg : terraform.Managed) : terraform.external nat :=
  {| terraform.tf := 0; terraform.mg := mg; terraform.tf_calls := [] |}.

(** * Properties *)

(** ** package strings, on examples *)

Example Split_example :
  Split ("a" +:+ newline +:+ newline +:+ "bc") newline = ["a"; ""; "bc"].
Proof. reflexivity. Qed.

Example Split_empty : Split "" newline = [""].
Proof. reflexivity. Qed.

Example Split_trailing : Split ("a" +:+ newline) newline = ["a"; ""].
Proof. reflexivity. Qed.

Example Contains_example : Contains "xx-abc-yy" "abc" = true /\ Contains "xx-ab" "abc" = false.
Proof. split; reflexivity. Qed.

(** ** The monad *)

Lemma bind_Returns {S A B : Type} (m : M S A) (k : A -> M S B) (s s' : S) (a : A) :
  m s = (Returns a, s') -> bind m k s = k a s'.
Proof. intros H. unfold bind. rewrite H. reflexivity. Qed.

Lemma bind_Panics {S A B : Type} (m : M S A) (k : A -> M S B) (s s' : S) (p : panic) :
  m s = (Panics p, s') -> bind m k s = (Panics p, s').
Proof. intros H. unfold bind. rewrite H. reflexivity. Qed.

Lemma LastOperation_Some (m : Machine) (o : Operation) :
  LastOperation (recv m) = Some o -> LastOperation_ m = (Returns o, m).
Proof. intros H. unfold LastOperation_, bind, get. rewrite H. reflexivity. Qed.

Lemma LastOperation_nil (m : Machine) :
  LastOperation (recv m) = None -> LastOperation_ m = (Panics NilDereference, m).
Proof. intros H. unfold LastOperation_, bind, get. rewrite H. reflexivity. Qed.

(** ** operation.go: what the bodies assign, and where it goes *)

Lemma MarkStart_frame_Running (o : Operation) (t : string) (now : Time) :
  MarkStart_frame o t now = {| Type_ := t; StartTime := Some now; EndTime := None; err := None |}
  /\ isRunning (MarkStart_frame o t now) = true.
Proof. split; reflexivity. Qed.

Lemma MarkEnd_frame_Finished (o : Operation) (now : Time) :
  isRunning o = true -> isFinished (MarkEnd_frame o now) = true.
Proof.
  unfold isRunning, isFinished. simpl.
  destruct (StartTime o); simpl; [reflexivity | discriminate].
Qed.

Lemma Flush_frame_Idle (o : Operation) :
  Flush_frame o = Operation_zero /\ isIdle (Flush_frame o) = true.
Proof. split; reflexivity. Qed.

Lemma MarkStart_Some (m : Machine) (o : Operation) (t : string) :
  LastOperation (recv m) = Some o -> MarkStart t m = (Returns tt, m).
Proof.
  intros H. unfold MarkStart.
  rewrite (bind_Returns _ _ _ _ _ (LastOperation_Some m o H)). reflexivity.
Qed.

Lemma MarkEnd_Some (m : Machine) (o : Operation) :
  LastOperation (recv m) = Some o -> MarkEnd m = (Returns tt, m).
Proof.
  intros H. unfold MarkEnd.
  rewrite (bind_Returns _ _ _ _ _ (LastOperation_Some m o H)). reflexivity.
Qed.

Lemma MarkStart_machine (m : Machine) (t : string) : snd (MarkStart t m) = m.
Proof.
  destruct (LastOperation (recv m)) as [o|] eqn:H.
  - rewrite (MarkStart_Some m o t H). reflexivity.
  - unfold MarkStart. rewrite (bind_Panics _ _ _ _ _ (LastOperation_nil m H)). reflexivity.
Qed.

Lemma MarkEnd_machine (m : Machine) : snd (MarkEnd m) = m.
Proof.
  destruct (LastOperation (recv m)) as [o|] eqn:H.
  - rewrite (MarkEnd_Some m o H). reflexivity.
  - unfold MarkEnd. rewrite (bind_Panics _ _ _ _ _ (LastOperation_nil m H)). reflexivity.
Qed.

(** C1 (the code at the claim). The claim asks that [MarkStart],
    [MarkEnd] and [Flush] move the Operation from Idle to Running, from
    Running to Finished and from Finished to Idle, visibly to every later
    read. In the code the three methods work on a copy: whatever the
    machine, the record behind [w.LastOperation] is the same after each
    call as before it; an Idle operation is still Idle after
    [MarkStart], a Running one still Running after [MarkEnd], and a
    Finished one still Finished after [Flush]. *)
Theorem Operation_transitions_stay_in_frame :
  (forall (m : Machine) (t : string), snd (MarkStart t m) = m)
  /\ (forall m : Machine, snd (MarkEnd m) = m)
  /\ (forall (m : Machine) (o : Operation), snd (Flush o m) = m)
  /\ (let m := machine_with (Some Operation_zero) in
      option_map isIdle (LastOperation (recv (snd (MarkStart "apply" m)))) = Some true)
  /\ (let m := machine_with (Some (op_running "apply")) in
      option_map isRunning (LastOperation (recv (snd (MarkEnd m)))) = Some true)
  /\ (let m := machine_with (Some (op_finished "apply")) in
      option_map isFinished
        (LastOperation (recv (snd (Flush (op_finished "apply") m)))) = Some true).
Proof.
  split; [exact MarkStart_machine|].
  split; [exact MarkEnd_machine|].
  split; [reflexivity|].
  repeat split; reflexivity.
Qed.

(** ** workspace.go *)

Section WorkspaceProperties.

Context {codec : json.Codec}.

Lemma isFinished_fields (o : Operation) :
  isFinished o = true -> exists s e, StartTime o = Some s /\ EndTime o = Some e.
Proof.
  unfold isFinished. destruct (StartTime o) as [s|], (EndTime o) as [e|]; simpl; try discriminate.
  intros _. exists s, e. split; reflexivity.
Qed.

Lemma isRunning_fields (o : Operation) :
  isRunning o = true -> exists s, StartTime o = Some s /\ EndTime o = None.
Proof.
  unfold isRunning. destruct (StartTime o) as [s|], (EndTime o) as [e|]; simpl; try discriminate.
  intros _. exists s. split; reflexivity.
Qed.

Lemma Refresh_gone (ctx : Context) (m : Machine) (o : Operation) :
  LastOperation (recv m) = Some o ->
  isFinished o = true ->
  Type_ o = "destroy" ->
  err o = None ->
  Refresh ctx m = (Returns (RefreshResult_zero, Some (NewNotFound "" "" "")), m).
Proof.
  intros Hop Hfin Hty Herr.
  destruct (isFinished_fields o Hfin) as (s & e & Hs & He).
  unfold Refresh.
  rewrite (bind_Returns _ _ _ _ _ (LastOperation_Some m o Hop)).
  rewrite Hs, He. simpl.
  unfold defer.
  rewrite (bind_Returns _ _ _ _ _ (LastOperation_Some m o Hop)).
  rewrite Herr, Hty. reflexivity.
Qed.

(** C3 (the code at the claim). The claim: with the Operation Finished,
    of type destroy and without error, the next refresh returns the
    not-found result and clears the Operation, so that the refresh after
    it runs the provisioner. In the code the first refresh does return
    not-found, but its deferred [Flush] works on a copy: the machine is
    left as it was, and a second refresh returns not-found again,
    without any process being started. *)
Theorem Refresh_gone_is_never_cleared (ctx : Context) (m : Machine) (o : Operation) :
  LastOperation (recv m) = Some o ->
  isFinished o = true ->
  Type_ o = "destroy" ->
  err o = None ->
  Refresh ctx m = (Returns (RefreshResult_zero, Some (NewNotFound "" "" "")), m)
  /\ (do _ <- Refresh ctx; Refresh ctx) m
     = (Returns (RefreshResult_zero, Some (NewNotFound "" "" "")), m).
Proof.
  intros Hop Hfin Hty Herr.
  pose proof (Refresh_gone ctx m o Hop Hfin Hty Herr) as H.
  split; [exact H|].
  rewrite (bind_Returns _ _ _ _ _ H). exact H.
Qed.

Lemma Destroy_of_destroy (ctx : Context) (m : Machine) (o : Operation) :
  LastOperation (recv m) = Some o ->
  Type_ o = "destroy" ->
  Destroy ctx m = (Returns None, m).
Proof.
  intros Hop Hty. unfold Destroy.
  rewrite (bind_Returns _ _ _ _ _ (LastOperation_Some m o Hop)).
  rewrite Hty. reflexivity.
Qed.

(** C6. For every workspace whose current Operation has type destroy,
    Running or Finished, [Destroy] returns nil at once and leaves the
    machine as it was: the Operation, the goroutines started and the
    processes launched are unchanged; so two calls in a row both return
    nil and launch nothing. *)
Theorem Destroy_idempotent_on_type (ctx ctx' : Context) (m : Machine) (o : Operation) :
  LastOperation (recv m) = Some o ->
  Type_ o = "destroy" ->
  Destroy ctx m = (Returns None, m)
  /\ (do _ <- Destroy ctx; Destroy ctx') m = (Returns None, m).
Proof.
  intros Hop Hty.
  pose proof (Destroy_of_destroy ctx m o Hop Hty) as H.
  split; [exact H|].
  rewrite (bind_Returns _ _ _ _ _ H). exact (Destroy_of_destroy ctx' m o Hop Hty).
Qed.

End WorkspaceProperties.

Lemma Refresh_gone_is_never_cleared_witness :
  let m := machine_with (Some (op_finished "destroy")) in
  Refresh (codec := sample_codec) None m
    = (Returns (RefreshResult_zero, Some (NewNotFound "" "" "")), m)
  /\ (do _ <- Refresh (codec := sample_codec) None; Refresh (codec := sample_codec) None) m
     = (Returns (RefreshResult_zero, Some (NewNotFound "" "" "")), m).
Proof.
  apply (Refresh_gone_is_never_cleared (codec := sample_codec) None
           (machine_with (Some (op_finished "destroy"))) (op_finished "destroy"));
    reflexivity.
Defined.

Lemma Destroy_idempotent_on_type_witness :
  let m := machine_with (Some (op_running "destroy")) in
  Destroy None m = (Returns None, m)
  /\ (do _ <- Destroy None; Destroy None) m = (Returns None, m).
Proof.
  apply (Destroy_idempotent_on_type None None
           (machine_with (Some (op_running "destroy"))) (op_running "destroy"));
    reflexivity.
Defined.

Section BusyGuard.

Context {codec : json.Codec}.


Lemma ApplyAsync_Finished (ctx : Context) (m : Machine) (o : Operation) (s e : Time) :
  LastOperation (recv m) = Some o -> StartTime o = Some s -> EndTime o = Some e ->
  ApplyAsync ctx m = (Returns None, spawned (GoApply (async_deadline s)) m).
Proof.
  intros Hop Hs He. unfold ApplyAsync.
  rewrite (bind_Returns _ _ _ _ _ (LastOperation_Some m o Hop)).
  rewrite He. simpl.
  rewrite (bind_Returns _ _ _ _ _ (MarkStart_Some m o "apply" Hop)).
  rewrite (bind_Returns _ _ _ _ _ (LastOperation_Some m o Hop)).
  rewrite Hs. reflexivity.
Qed.






End BusyGuard.




(** ** package strings: what [Contains] and [Split] compute *)

Lemma app_nil_string (b : string) : "" +:+ b = b.
Proof. reflexivity. Qed.

Lemma app_cons_string (c : ascii) (a b : string) : String c a +:+ b = String c (a +:+ b).
Proof. reflexivity. Qed.

Lemma app_assoc_string (a b c : string) : (a +:+ b) +:+ c = a +:+ (b +:+ c).
Proof.
  induction a as [|x a IH]; [reflexivity|].
  rewrite !app_cons_string, IH. reflexivity.
Qed.

Lemma HasPrefix_nil (s : string) : HasPrefix s "" = true.
Proof. destruct s; reflexivity. Qed.

Lemma HasPrefix_app (s prefix : string) :
  HasPrefix s prefix = true <-> exists rest, s = prefix +:+ rest.
Proof.
  revert s. induction prefix as [|c p IH]; intros s.
  - split; [intros _; exists s; reflexivity | intros _; destruct s; reflexivity].
  - destruct s as [|d s']; cbn [HasPrefix].
    + split; [discriminate | intros [rest H]; discriminate].
    + rewrite andb_true_iff, IH. split.
      * intros [Hc [rest ->]]. apply Ascii.eqb_eq in Hc. subst d. exists rest. reflexivity.
      * intros [rest H]. rewrite app_cons_string in H. injection H as -> ->.
        split; [apply Ascii.eqb_refl | exists rest; reflexivity].
Qed.

Lemma Contains_app (s substr : string) :
  Contains s substr = true <-> exists a b, s = a +:+ substr +:+ b.
Proof.
  induction s as [|c s IH].
  - cbn [Contains]. rewrite orb_false_r, HasPrefix_app. split.
    + intros [rest H]. exists "", rest. exact H.
    + intros (a & b & H). destruct a; [exists b; exact H | discriminate].
  - cbn [Contains]. rewrite orb_true_iff, IH, HasPrefix_app. split.
    + intros [[rest H] | (a & b & H)].
      * exists "", rest. exact H.
      * exists (String c a), b. rewrite app_cons_string, H. reflexivity.
    + intros (a & b & H). destruct a as [|d a].
      * left. exists b. exact H.
      * right. rewrite app_cons_string in H. injection H as _ H. exists a, b. exact H.
Qed.

Lemma Split_newline_cons (c : ascii) (s : string) :
  Split (String c s) newline =
  if Ascii.eqb (ascii_of_nat 10) c then "" :: Split s newline
  else match Split s newline with
       | piece :: rest => String c piece :: rest
       | [] => [String c ""]
       end.
Proof.
  unfold Split. cbn [split_from]. cbn [HasPrefix newline].
  rewrite HasPrefix_nil, andb_true_r. reflexivity.
Qed.

(** The head of [Split s newline] starts [s]. *)
Lemma Split_newline_head (s piece : string) (rest : list string) :
  Split s newline = piece :: rest -> exists b, s = piece +:+ b.
Proof.
  revert piece rest. induction s as [|d s IHs]; intros piece rest Hs.
  - injection Hs as <- _. exists "". reflexivity.
  - rewrite Split_newline_cons in Hs.
    destruct (Ascii.eqb (ascii_of_nat 10) d).
    + injection Hs as <- _. exists (String d s). reflexivity.
    + destruct (Split s newline) as [|q r] eqn:Hq.
      * injection Hs as <- _. exists s. reflexivity.
      * injection Hs as <- _. destruct (IHs q r eq_refl) as [b ->].
        exists b. reflexivity.
Qed.

(** Every line of [Split s newline] is a piece of [s]. *)
Lemma Split_newline_piece (s line : string) :
  In line (Split s newline) -> exists a b, s = a +:+ line +:+ b.
Proof.
  revert line. induction s as [|c s IH]; intros line Hin.
  - destruct Hin as [<- | []]. exists "", "". reflexivity.
  - rewrite Split_newline_cons in Hin.
    destruct (Ascii.eqb (ascii_of_nat 10) c).
    + destruct Hin as [<- | Hin].
      * exists "", (String c s). reflexivity.
      * destruct (IH line Hin) as (a & b & ->). exists (String c a), b. reflexivity.
    + destruct (Split s newline) as [|piece rest] eqn:Hs.
      * destruct Hin as [<- | []]. exists "", s. reflexivity.
      * destruct Hin as [<- | Hin].
        -- destruct (Split_newline_head s piece rest Hs) as [b ->].
           exists "", b. reflexivity.
        -- destruct (IH line (or_intror Hin)) as (a & b & ->).
           exists (String c a), b. reflexivity.
Qed.

Lemma Contains_line (s line substr : string) :
  In line (Split s newline) -> Contains line substr = true -> Contains s substr = true.
Proof.
  intros Hin Hc. destruct (Split_newline_piece s line Hin) as (a & b & ->).
  apply Contains_app in Hc. destruct Hc as (a' & b' & ->).
  apply Contains_app. exists (a +:+ a'), (b' +:+ b).
  rewrite !app_assoc_string. reflexivity.
Qed.

(** ** Workspace.Plan *)

Lemma find_summary_first (pre post : list string) (l d : string) :
  Forall (fun x => Contains x change_summary_marker = false) pre ->
  Contains l change_summary_marker = true ->
  find_summary (pre ++ l :: post)%list d = l.
Proof.
  intros Hpre Hl. induction Hpre as [|x pre Hx _ IH]; cbn [find_summary app].
  - rewrite Hl. reflexivity.
  - rewrite Hx. exact IH.
Qed.

Lemma find_summary_none (lines : list string) (d : string) :
  Forall (fun x => Contains x change_summary_marker = false) lines ->
  find_summary lines d = d.
Proof.
  intros H. induction H as [|x lines Hx _ IH]; cbn [find_summary].
  - reflexivity.
  - rewrite Hx. exact IH.
Qed.

Lemma no_summary_in_lines (s : string) :
  Contains s change_summary_marker = false ->
  Forall (fun x => Contains x change_summary_marker = false) (Split s newline).
Proof.
  intros H. apply Forall_forall. intros x Hin.
  destruct (Contains x change_summary_marker) eqn:Hx; [|reflexivity].
  apply list_elem_of_In in Hin.
  rewrite (Contains_line s x _ Hin Hx) in H. discriminate.
Qed.

Section PlanProperties.

Context {codec : json.Codec}.

(** [Plan] past its guard and a successful run of the provisioner. *)
Lemma Plan_after_run (ctx : Context) (m : Machine) (o : Operation)
      (r : Completed) (fs : gmap string string) :
  LastOperation (recv m) = Some o ->
  isRunning o = false ->
  terraform (os m) (terraform_cmd ctx plan_args (dir (recv m))) (files (os m)) = (r, fs) ->
  run_err r = None ->
  fst (Plan ctx m) =
  let line := find_summary (Split (Stdout r) newline) "" in
  if String.eqb line "" then
    Returns (PlanResult_zero,
             Some (Errorf "cannot find the change summary line in plan log: %s"
                     [ArgString (Stdout r)]))
  else
    match snd (json.UnmarshalPlan line plan_zero) with
    | Some e => Returns (PlanResult_zero, Some (Wrap e "cannot unmarshal change summary json"))
    | None =>
        Returns ({| Exists := PrimFloat.eqb (Add (Changes (fst (json.UnmarshalPlan line plan_zero)))) 0%float;
                    UpToDate := PrimFloat.eqb (Change (Changes (fst (json.UnmarshalPlan line plan_zero)))) 0%float |},
                 None)
    end.
Proof.
  intros Hop Hrun Htf Herr. unfold Plan.
  rewrite (bind_Returns _ _ _ _ _ (LastOperation_Some m o Hop)).
  unfold isRunning in Hrun. rewrite Hrun.
  unfold bind at 1. unfold get.
  unfold bind at 1. unfold Run, os_Run. rewrite Htf, Herr.
  cbv zeta.
  destruct (String.eqb (find_summary (Split (Stdout r) newline) "") ""); [reflexivity|].
  destruct (snd (json.UnmarshalPlan _ plan_zero)); reflexivity.
Qed.

(** C5. When the Operation is not Running and the provisioner process
    succeeds: if the first line of its output that holds the
    change_summary record decodes to the counts add and change, [Plan]
    returns exists = (add == 0) and upToDate = (change == 0) and no
    error; if the output holds no change_summary record, [Plan] returns
    the error that the change summary line cannot be found. *)
Theorem Plan_change_summary (ctx : Context) (m : Machine) (o : Operation)
        (r : Completed) (fs : gmap string string) :
  LastOperation (recv m) = Some o ->
  isRunning o = false ->
  terraform (os m) (terraform_cmd ctx plan_args (dir (recv m))) (files (os m)) = (r, fs) ->
  run_err r = None ->
  (forall (pre post : list string) (l : string) (p : plan),
      Split (Stdout r) newline = (pre ++ l :: post)%list ->
      Forall (fun x => Contains x change_summary_marker = false) pre ->
      Contains l change_summary_marker = true ->
      json.UnmarshalPlan l plan_zero = (p, None) ->
      fst (Plan ctx m) =
      Returns ({| Exists := PrimFloat.eqb (Add (Changes p)) 0%float;
                  UpToDate := PrimFloat.eqb (Change (Changes p)) 0%float |}, None))
  /\ (Contains (Stdout r) change_summary_marker = false ->
      fst (Plan ctx m) =
      Returns (PlanResult_zero,
               Some (Errorf "cannot find the change summary line in plan log: %s"
                       [ArgString (Stdout r)]))).
Proof.
  intros Hop Hrun Htf Herr.
  pose proof (Plan_after_run ctx m o r fs Hop Hrun Htf Herr) as HP. cbv zeta in HP.
  split.
  - intros pre post l p Hsplit Hpre Hl Hp.
    rewrite HP, Hsplit, (find_summary_first pre post l "" Hpre Hl).
    destruct (String.eqb_spec l "") as [->|_]; [discriminate Hl|].
    rewrite Hp. reflexivity.
  - intros Hno.
    rewrite HP, (find_summary_none _ "" (no_summary_in_lines _ Hno)). reflexivity.
Qed.

End PlanProperties.

Lemma Plan_change_summary_witness :
  fst (Plan (codec := sample_codec) None (machine_with (Some Operation_zero)))
  = Returns ({| Exists := true; UpToDate := false |}, None).
Proof.
  pose proof (Plan_change_summary (codec := sample_codec) None
                (machine_with (Some Operation_zero)) Operation_zero
                (fst (sample_terraform (terraform_cmd None plan_args "/tmp/uid-1") ∅)) ∅
                eq_refl eq_refl eq_refl eq_refl) as [H _].
  apply (H [ "{" +:+ quote +:+ "type" +:+ quote +:+ ":" +:+ quote +:+ "version" +:+ quote +:+ "}" ]
           [ "" ] sample_summary
           {| Changes := {| Add := 0%float; Change := 1%float |} |}).
  - reflexivity.
  - constructor; [reflexivity | constructor].
  - reflexivity.
  - reflexivity.
Defined.

(** ** files.go *)

Lemma range_assign_union (m base : gmap string Value) :
  range_assign (Some m) base = m ∪ base.
Proof.
  unfold range_assign. induction m as [|k v m Hk IH] using map_ind.
  - rewrite map_fold_empty, (left_id_L ∅ (∪)). reflexivity.
  - rewrite map_fold_insert_L; [|intros; apply insert_insert_ne; assumption|exact Hk].
    rewrite IH, insert_union_l. reflexivity.
Qed.

Lemma range_assign_default (src : option (gmap string Value)) (base : gmap string Value) :
  range_assign src base = default ∅ src ∪ base.
Proof.
  destruct src as [m|]; simpl.
  - apply range_assign_union.
  - rewrite (left_id_L ∅ (∪)). reflexivity.
Qed.

(** The three loops of [TFState] build the merge of the spec. *)
Lemma TFState_base (fp : FileProducer) :
  <["id" := VString (GetExternalName (Resource fp))]>
    (range_assign (observation fp) (range_assign (parameters fp) ∅))
  = merged_attributes fp.
Proof.
  unfold merged_attributes.
  rewrite !range_assign_default, (right_id_L ∅ (∪)), insert_union_singleton_l.
  reflexivity.
Qed.

(** In the merge the id wins over everything, and the observation wins
    over the parameters. *)
Lemma merged_attributes_lookup (fp : FileProducer) (k : string) :
  merged_attributes fp !! k =
  if decide (k = "id") then Some (VString (GetExternalName (Resource fp)))
  else match default ∅ (observation fp) !! k with
       | Some v => Some v
       | None => default ∅ (parameters fp) !! k
       end.
Proof.
  unfold merged_attributes. rewrite lookup_union.
  destruct (decide (k = "id")) as [->|Hne].
  - rewrite lookup_singleton_eq. rewrite union_Some_l. reflexivity.
  - rewrite lookup_singleton_ne by congruence. rewrite (left_id_L None union).
    rewrite lookup_union. destruct (default ∅ (observation fp) !! k) as [v|].
    + rewrite union_Some_l. reflexivity.
    + rewrite (left_id_L None union). reflexivity.
Qed.

Section FileProducerProperties.

Context {codec : json.Codec}.
Variable key : string.

Lemma TFState_unfold (fp : FileProducer) :
  TFState key fp =
  (match json.Marshal (VMap (merged_attributes fp)) with
   | (_, Some e) => Returns (None, Some (Wrap e "cannot marshal produced state attributes"))
   | (attr, None) =>
       Returns
         (Some {| json.TerraformVersion := Version (Setup fp);
                  json.Lineage := GetUID (Resource fp);
                  json.Resources :=
                    [ {| json.Mode := "managed";
                         json.Type_ := GetTerraformResourceType (Resource fp);
                         json.Name := GetName (Resource fp);
                         json.ProviderConfig :=
                           "provider[" +:+ quote +:+ "registry.terraform.io/"
                             +:+ Source (Requirement (Setup fp)) +:+ quote +:+ "]";
                         json.Instances :=
                           [ {| json.SchemaVersion := 0;
                                json.PrivateRaw := GetAnnotations (Resource fp) !! key;
                                json.AttributesRaw := attr |} ] |} ] |}, None)
   end, fp).
Proof.
  unfold TFState, bind, get. cbv zeta. rewrite TFState_base.
  destruct (json.Marshal (VMap (merged_attributes fp))) as [attr [e|]]; reflexivity.
Qed.

(** C4. For every producer whose merged attributes the codec can encode,
    [TFState] returns a state whose attributesRaw is the JSON encoding of
    parameters ⊕ observation ⊕ {id: externalName}, the later operand
    winning on a shared key. *)
Theorem TFState_attributesRaw (fp : FileProducer) (raw : string) :
  json.Marshal (VMap (merged_attributes fp)) = (raw, None) ->
  exists st,
    TFState key fp = (Returns (Some st, None), fp)
    /\ attributesRaw st = Some raw.
Proof.
  intros H. rewrite TFState_unfold, H.
  eexists. split; reflexivity.
Qed.

Lemma TFState_producer (fp : FileProducer) : snd (TFState key fp) = fp.
Proof. rewrite TFState_unfold. reflexivity. Qed.

Lemma MainTF_nil (fp : FileProducer) :
  parameters fp = None -> MainTF fp = (Panics NilMapAssignment, fp).
Proof. intros H. unfold MainTF, bind, get. rewrite H. reflexivity. Qed.

Lemma MainTF_producer (fp : FileProducer) (p : gmap string Value) :
  parameters fp = Some p ->
  snd (MainTF fp)
  = set_parameters (Some (<["prevent_destroy" := VBool (negb (WasDeleted (Resource fp)))]> p)) fp
  /\ exists hcl, fst (MainTF fp) = Returns hcl.
Proof.
  intros H. unfold MainTF, bind, get. rewrite H. simpl.
  split; [reflexivity | eexists; reflexivity].
Qed.

(** C8 (as amended). [TFState] leaves the producer as it was. [MainTF]
    leaves the observation, the resource and the setup of the producer as
    they were, and changes its cached parameters at one key: it sets
    prevent_destroy to the negation of the deletion mark; [TFState] after
    [MainTF] returns what [TFState] returns on the parameters with that
    key set. *)
Theorem FileProducer_effects :
  (forall fp, snd (TFState key fp) = fp)
  /\ (forall fp,
        observation (snd (MainTF fp)) = observation fp
        /\ Resource (snd (MainTF fp)) = Resource fp
        /\ Setup (snd (MainTF fp)) = Setup fp)
  /\ (forall fp p,
        parameters fp = Some p ->
        parameters (snd (MainTF fp))
        = Some (<["prevent_destroy" := VBool (negb (WasDeleted (Resource fp)))]> p)
        /\ fst ((do _ <- MainTF; TFState key) fp)
           = fst (TFState key
                    (set_parameters
                       (Some (<["prevent_destroy" := VBool (negb (WasDeleted (Resource fp)))]> p))
                       fp))).
Proof.
  split; [exact TFState_producer|]. split.
  - intros fp. destruct (parameters fp) as [p|] eqn:Hp.
    + destruct (MainTF_producer fp p Hp) as [-> _]. repeat split; reflexivity.
    + rewrite (MainTF_nil fp Hp). repeat split; reflexivity.
  - intros fp p Hp. destruct (MainTF_producer fp p Hp) as [Hs [hcl Hh]]. split.
    + rewrite Hs. reflexivity.
    + unfold bind at 1. destruct (MainTF fp) as [r fp'] eqn:HM.
      simpl in Hs, Hh. subst r fp'. reflexivity.
Qed.

End FileProducerProperties.

Lemma TFState_attributesRaw_witness :
  exists st,
    TFState (codec := sample_codec) "private" sample_producer = (Returns (Some st, None), sample_producer)
    /\ attributesRaw st = Some "{id,acl,arn}".
Proof.
  apply (TFState_attributesRaw (codec := sample_codec) "private" sample_producer "{id,acl,arn}").
  vm_compute. reflexivity.
Defined.

Lemma FileProducer_effects_witness :
  parameters (snd (MainTF sample_producer))
  = Some (<["prevent_destroy" := VBool true]> {[ "acl" := VString "private"; "arn" := VString "stale" ]}).
Proof.
  destruct (FileProducer_effects (codec := sample_codec) "private") as (_ & _ & H).
  destruct (H sample_producer {[ "acl" := VString "private"; "arn" := VString "stale" ]} eq_refl)
    as [Hp _].
  exact Hp.
Defined.

(** C8 (as stated) fails: [MainTF] writes prevent_destroy into the cached
    parameters, and a [TFState] that follows it encodes that key too. *)
Lemma MainTF_is_not_pure :
  ~ (forall fp, snd (MainTF fp) = fp)
  /\ ~ (forall (codec : json.Codec) key fp,
          fst (TFState key fp) = fst ((do _ <- MainTF; TFState key) fp)).
Proof.
  split.
  - intros H. specialize (H sample_producer).
    apply (f_equal (fun fp => default ∅ (parameters fp) !! "prevent_destroy")) in H.
    vm_compute in H. discriminate H.
  - intros H. specialize (H sample_codec "private" sample_producer).
    vm_compute in H. discriminate H.
Qed.

(** ** store.go *)

Ltac break_match_in H :=
  match type of H with
  | context [match ?x with _ => _ end] => destruct x eqn:?
  end.

Lemma NewFileProducer_Setup (tr : Terraformed) (fp : FileProducer) (e : option error) :
  NewFileProducer tr = (Some fp, e) -> Setup fp = TerraformSetup_zero /\ Resource fp = tr.
Proof.
  unfold NewFileProducer. intros H.
  repeat (break_match_in H; try discriminate H).
  injection H as <- _. split; reflexivity.
Qed.

Section StoreProperties.

Context {codec : json.Codec}.
Variable key : string.

Lemma TFState_returns (fp : FileProducer) :
  exists r, TFState key fp = (Returns r, fp).
Proof.
  rewrite TFState_unfold.
  destruct (json.Marshal (VMap (merged_attributes fp))) as [attr [e|]]; eexists; reflexivity.
Qed.

Lemma write_tfstate_producer (d : string) (fp fp' : FileProducer) (e : option error)
      (s s' : StoreMachine) :
  write_tfstate key d fp s = (Returns (e, fp'), s') ->
  fp' = fp /\ registry s' = registry s /\ TempDir (sos s') = TempDir (sos s).
Proof.
  unfold write_tfstate, bind, on_fp.
  destruct (TFState_returns fp) as [[st te] ->].
  destruct te as [te|]; [intros H; injection H as _ <- <-; repeat split; reflexivity|].
  destruct st as [st|]; [|discriminate].
  destruct (json.MarshalState st) as [rawState [me|]];
    [intros H; injection H as _ <- <-; repeat split; reflexivity|].
  unfold WriteFile, os_WriteFile.
  destruct (faults (sos s) (SysWriteFile (filepath_Join d "terraform.tfstate"))) as [we|];
    intros H; injection H as _ <- <-; repeat split; reflexivity.
Qed.

End StoreProperties.

Section StoreInversion.

Context {codec : json.Codec}.
Variable key : string.

Lemma Workspace_returns (tr : Terraformed) (enq : EnqueueFn) (sm sm' : StoreMachine)
      (w : Workspace) :
  WorkspaceStore_Workspace key tr enq sm = (Returns (Some w, None), sm') ->
  let d := filepath_Join (TempDir (sos sm)) (GetUID tr) in
  exists fp fp' hcl loaded,
    NewFileProducer tr = (Some fp, None)
    /\ MainTF fp = (Returns hcl, fp')
    /\ files (sos sm') !! filepath_Join d "main.tf.json" = Some (fst (json.Marshal (VMap hcl)))
    /\ LoadOrStore (GetUID tr) {| LastOperation := None; Enqueue := enq; dir := d |} (registry sm)
       = (w, loaded, registry sm').
Proof.
  intros H d. unfold WorkspaceStore_Workspace in H.
  unfold bind at 1 in H. unfold get at 1 in H. fold d in H.
  destruct (NewFileProducer tr) as [[fp|] [e|]]; try discriminate H.
  destruct (os_MkdirAll d (sos sm)) as [e|]; [discriminate H|].
  destruct (Ignore os_IsNotExist (os_Stat (filepath_Join d "terraform.tfstate") (sos sm)))
    as [e|]; [discriminate H|].
  unfold bind at 1 in H.
  match type of H with
  | context [(if ?c then ?a else ?b) sm] =>
      destruct ((if c then a else b) sm) as [[[e1 fp1]|p] s1] eqn:Hstep
  end; [|discriminate H].
  assert (Hfp : fp1 = fp /\ registry s1 = registry sm).
  { destruct (os_IsNotExist _) in Hstep.
    - destruct (write_tfstate_producer key d fp fp1 e1 sm s1 Hstep) as (-> & -> & _).
      split; reflexivity.
    - injection Hstep as _ <- <-. split; reflexivity. }
  destruct Hfp as [-> Hreg].
  destruct e1 as [e1|]; [discriminate H|].
  unfold bind at 1 in H. unfold on_fp in H.
  destruct (MainTF fp) as [[hcl|p] fp'] eqn:HM; [|discriminate H].
  cbn [fst] in H.
  destruct (json.Marshal (VMap hcl)) as [rawHCL [e|]] eqn:Hmar; [discriminate H|].
  unfold bind at 1 in H. unfold WriteFile, os_WriteFile in H.
  destruct (faults (sos s1) (SysWriteFile (filepath_Join d "main.tf.json"))) as [e|];
    [discriminate H|].
  unfold bind at 1 in H. unfold get at 1 in H. cbn [registry sos] in H.
  destruct (LoadOrStore (GetUID tr) {| LastOperation := None; Enqueue := enq; dir := d |}
              (registry s1)) as [[w0 loaded] ws'] eqn:HL.
  unfold bind, modify, ret in H. injection H as <- <-.
  exists fp, fp', hcl, loaded.
  split; [reflexivity|]. split; [exact HM|]. split.
  - cbn. rewrite lookup_insert_eq, Hmar. reflexivity.
  - rewrite <- Hreg. exact HL.
Qed.

(** Whatever the producer, [MainTF] embeds the producer's own [Setup]. *)
Lemma MainTF_embeds_Setup (fp fp' : FileProducer) (hcl : gmap string Value) :
  MainTF fp = (Returns hcl, fp') ->
  hcl !! "terraform"
  = Some (VMap {[ "required_providers" :=
                    VMap {[ "tf-provider" :=
                              of_strings (<["source" := Source (Requirement (Setup fp))]>
                                          (<["version" := req_Version (Requirement (Setup fp))]> ∅)) ]} ]})
  /\ hcl !! "provider" = Some (VMap {[ "tf-provider" := of_map (Configuration (Setup fp)) ]}).
Proof.
  unfold MainTF, bind, get. destruct (parameters fp) as [p|]; [|discriminate].
  simpl. intros H. injection H as <- _. split; reflexivity.
Qed.

(** C7 (the code at the claim). The claim asks that the main.tf.json
    written for a resource acquired through the store embeds the store's
    ProviderSetup. In the code [Workspace] builds its producer with
    [NewFileProducer], which leaves [Setup] at its zero value, and never
    reads [ws.setup]: whatever the setup of the store, the configuration
    written has an empty source, an empty version and a nil provider
    configuration. *)
Theorem Workspace_main_tf_ignores_setup (tr : Terraformed) (enq : EnqueueFn)
        (sm sm' : StoreMachine) (w : Workspace) :
  WorkspaceStore_Workspace key tr enq sm = (Returns (Some w, None), sm') ->
  exists hcl,
    files (sos sm') !! filepath_Join (filepath_Join (TempDir (sos sm)) (GetUID tr)) "main.tf.json"
    = Some (fst (json.Marshal (VMap hcl)))
    /\ hcl !! "terraform"
       = Some (VMap {[ "required_providers" :=
                         VMap {[ "tf-provider" :=
                                   of_strings (<["source" := ""]> (<["version" := ""]> ∅)) ]} ]})
    /\ hcl !! "provider" = Some (VMap {[ "tf-provider" := VNil ]}).
Proof.
  intros H. destruct (Workspace_returns tr enq sm sm' w H) as (fp & fp' & hcl & loaded & Hn & HM & Hf & _).
  destruct (NewFileProducer_Setup tr fp None Hn) as [Hsetup _].
  destruct (MainTF_embeds_Setup fp fp' hcl HM) as [Ht Hp].
  rewrite Hsetup in Ht, Hp.
  exists hcl. split; [exact Hf|]. split; [exact Ht | exact Hp].
Qed.

Lemma LoadOrStore_unassigned (uid : string) (enq : EnqueueFn) (d : string)
      (ws ws' : WorkspaceStore) (w : Workspace) (loaded : bool) :
  all_unassigned ws ->
  LoadOrStore uid {| LastOperation := None; Enqueue := enq; dir := d |} ws = (w, loaded, ws') ->
  LastOperation w = None /\ all_unassigned ws' /\ store ws' !! uid = Some w.
Proof.
  intros Hall. unfold LoadOrStore.
  destruct (store ws !! uid) as [w0|] eqn:Hl; intros H; injection H as <- _ <-.
  - split; [exact (Hall uid w0 Hl)|]. split; [exact Hall | exact Hl].
  - split; [reflexivity|]. split.
    + intros k w'. cbn [store]. rewrite lookup_insert.
      destruct (decide (uid = k)) as [_|_]; [intros [= <-]; reflexivity | apply Hall].
    + cbn [store]. apply lookup_insert_eq.
Qed.

(** Every public operation of a workspace starts by dereferencing
    [LastOperation]. *)
Lemma nil_LastOperation_panics (ctx : Context) (m : Machine) :
  LastOperation (recv m) = None ->
  Plan ctx m = (Panics NilDereference, m)
  /\ Apply ctx m = (Panics NilDereference, m)
  /\ ApplyAsync ctx m = (Panics NilDereference, m)
  /\ Destroy ctx m = (Panics NilDereference, m)
  /\ Refresh ctx m = (Panics NilDereference, m).
Proof.
  intros H. pose proof (LastOperation_nil m H) as Hp.
  unfold Plan, Apply, ApplyAsync, Destroy, Refresh.
  rewrite !(bind_Panics _ _ _ _ _ Hp). repeat split; reflexivity.
Qed.

(** C10. In a registry whose workspaces all have a nil [LastOperation]
    (the registry of [NewWorkspaceStore] is one), the workspace that
    [WorkspaceStore.Workspace] registers and returns has a nil
    [LastOperation], and the registry stays such a registry; on that
    workspace, whatever the machine, [Plan], [Apply], [ApplyAsync],
    [Destroy] and [Refresh] each panic on the nil dereference before doing
    anything else. *)
Theorem fresh_Workspace_nil_dereference (tr : Terraformed) (enq : EnqueueFn)
        (sm sm' : StoreMachine) (w : Workspace) :
  all_unassigned (registry sm) ->
  WorkspaceStore_Workspace key tr enq sm = (Returns (Some w, None), sm') ->
  LastOperation w = None
  /\ store (registry sm') !! GetUID tr = Some w
  /\ all_unassigned (registry sm')
  /\ forall (ctx : Context) (o : OS) (gs : list Goroutine) (qs : list nat),
       let m := {| recv := w; os := o; goroutines := gs; enqueued := qs |} in
       Plan ctx m = (Panics NilDereference, m)
       /\ Apply ctx m = (Panics NilDereference, m)
       /\ ApplyAsync ctx m = (Panics NilDereference, m)
       /\ Destroy ctx m = (Panics NilDereference, m)
       /\ Refresh ctx m = (Panics NilDereference, m).
Proof.
  intros Hall H.
  destruct (Workspace_returns tr enq sm sm' w H) as (fp & fp' & hcl & loaded & _ & _ & _ & HL).
  destruct (LoadOrStore_unassigned _ _ _ _ _ _ _ Hall HL) as (Hw & Hall' & Hreg).
  split; [exact Hw|]. split; [exact Hreg|]. split; [exact Hall'|].
  intros ctx o gs qs m. apply nil_LastOperation_panics. exact Hw.
Qed.

End StoreInversion.

Lemma NewWorkspaceStore_unassigned (setup : TerraformSetup) :
  all_unassigned (NewWorkspaceStore setup).
Proof. intros uid w H. cbn in H. rewrite lookup_empty in H. discriminate H. Qed.

Lemma Workspace_main_tf_ignores_setup_witness :
  Source (Requirement (setup (registry sample_store_machine))) = "hashicorp/aws"
  /\ exists hcl,
       files (sos (snd (WorkspaceStore_Workspace (codec := sample_codec) "private"
                          sample_resource (Some 0) sample_store_machine)))
         !! "/tmp/uid-1/main.tf.json"
       = Some (fst (sample_Marshal (VMap hcl)))
       /\ hcl !! "terraform"
          = Some (VMap {[ "required_providers" :=
                            VMap {[ "tf-provider" :=
                                      of_strings (<["source" := ""]> (<["version" := ""]> ∅)) ]} ]})
       /\ hcl !! "provider" = Some (VMap {[ "tf-provider" := VNil ]}).
Proof.
  split; [reflexivity|].
  apply (Workspace_main_tf_ignores_setup (codec := sample_codec) "private"
           sample_resource (Some 0) sample_store_machine _
           {| LastOperation := None; Enqueue := Some 0; dir := "/tmp/uid-1" |}).
  vm_compute. reflexivity.
Defined.

Lemma fresh_Workspace_nil_dereference_witness :
  let w := {| LastOperation := None; Enqueue := Some 0; dir := "/tmp/uid-1" |} in
  let m := {| recv := w; os := sample_os; goroutines := []; enqueued := [] |} in
  Plan (codec := sample_codec) None m = (Panics NilDereference, m)
  /\ Refresh (codec := sample_codec) None m = (Panics NilDereference, m).
Proof.
  intros w m.
  destruct (fresh_Workspace_nil_dereference (codec := sample_codec) "private"
              sample_resource (Some 0) sample_store_machine
              (snd (WorkspaceStore_Workspace (codec := sample_codec) "private"
                      sample_resource (Some 0) sample_store_machine))
              w (NewWorkspaceStore_unassigned sample_setup))
    as (_ & _ & _ & Hops).
  - vm_compute. reflexivity.
  - destruct (Hops None sample_os [] []) as (HP & _ & _ & _ & HR).
    split; [exact HP | exact HR].
Defined.

(** ** pkg/terraform *)

(** C9. For every Terraformed resource whose external name is empty and
    whose state annotation is empty, [Observe] returns an observation with
    ResourceExists false and a nil error, and leaves everything as it
    was: the adapter behind [e.tf] (through which the workspace and the
    provisioner are reached) is not called and its state is unchanged. *)
Theorem Observe_of_fresh_resource {T : Type} {adapter : terraform.Adapter T}
        (key : string) (ctx : Context) (e : terraform.external T) (tr : Terraformed) :
  terraform.mg e = terraform.IsTerraformed tr ->
  GetExternalName tr = "" ->
  terraform.GetState key tr = "" ->
  terraform.Observe key ctx e
  = (Returns ({| terraform.ResourceExists := false;
                 terraform.ResourceUpToDate := false;
                 terraform.ResourceLateInitialized := false;
                 terraform.eo_ConnectionDetails := None |}, None), e).
Proof.
  intros Hmg Hname Hstate. unfold terraform.Observe, bind, get.
  rewrite Hmg, Hname, Hstate. reflexivity.
Qed.

Lemma Observe_of_fresh_resource_witness :
  let e := {| terraform.tf := 0; terraform.mg := terraform.IsTerraformed fresh_resource;
              terraform.tf_calls := [] |} in
  terraform.Observe (adapter := counting_adapter) "terrajet.crossplane.io/state" None e
  = (Returns ({| terraform.ResourceExists := false;
                 terraform.ResourceUpToDate := false;
                 terraform.ResourceLateInitialized := false;
                 terraform.eo_ConnectionDetails := None |}, None), e).
Proof.
  apply (Observe_of_fresh_resource (adapter := counting_adapter) "terrajet.crossplane.io/state"
           None _ fresh_resource); reflexivity.
Defined.

(** With an external name the adapter is called. *)
Example Observe_of_named_resource :
  let e := {| terraform.tf := 0; terraform.mg := terraform.IsTerraformed sample_resource;
              terraform.tf_calls := [] |} in
  terraform.tf (snd (terraform.Observe (adapter := counting_adapter)
                       "terrajet.crossplane.io/state" None e)) = 1
  /\ terraform.tf_calls (snd (terraform.Observe (adapter := counting_adapter)
                                "terrajet.crossplane.io/state" None e)) = ["Observe"].
Proof. vm_compute. split; reflexivity. Qed.

(** ** The operations on examples *)

Example MarkStart_on_Idle :
  let m := machine_with (Some Operation_zero) in
  MarkStart "apply" m = (Returns tt, m)
  /\ MarkStart_frame Operation_zero "apply" (now (os m)) = op_running_at "apply" 1000%Z.
Proof. split; reflexivity. Qed.

Example ApplyAsync_on_Idle :
  ApplyAsync None (machine_with (Some Operation_zero))
  = (Panics NilDereference, machine_with (Some Operation_zero)).
Proof. reflexivity. Qed.

Example Plan_on_Idle_guard :
  isRunning Operation_zero = false /\ isIdle Operation_zero = true.
Proof. split; reflexivity. Qed.

Example Plan_without_summary :
  fst (Plan (codec := sample_codec) None
         {| recv := {| LastOperation := Some Operation_zero; Enqueue := None; dir := "/w" |};
            os := silent_os; goroutines := []; enqueued := [] |})
  = Returns (PlanResult_zero,
             Some (Errorf "cannot find the change summary line in plan log: %s" [ArgString "Error"])).
Proof. vm_compute. reflexivity. Qed.

(** The goroutine of a destroy that succeeds records no error, and its
    [MarkEnd] ends nothing. *)
Example destroy_goroutine_leaves_Operation :
  let m := machine_with (Some (op_finished "apply")) in
  recv (snd (run_goroutine (GoDestroy (async_deadline 10%Z)) m)) = recv m
  /\ enqueued (snd (run_goroutine (GoDestroy (async_deadline 10%Z)) m)) = [0%nat].
Proof. vm_compute. split; reflexivity. Qed.

(** * Further properties of the code *)

(** ** workspace.go: the synchronous operations *)

Lemma disciplined_plan (ctx : Context) (w : Workspace) :
  disciplined w (terraform_cmd ctx plan_args (dir w)).
Proof.
  split; [reflexivity|]. split; [reflexivity|].
  intros f Hf. cbn in Hf |- *. tauto.
Qed.

Lemma disciplined_args (ctx : Context) (w : Workspace) (args : list string) :
  (forall f, In f fixed_flags -> In f args) ->
  disciplined w (terraform_cmd ctx args (dir w)).
Proof. intros H. split; [reflexivity|]. split; [reflexivity | exact H]. Qed.

Lemma fixed_flags_in_args :
  (forall f, In f fixed_flags -> In f plan_args)
  /\ (forall f, In f fixed_flags -> In f apply_args)
  /\ (forall f, In f fixed_flags -> In f refresh_args)
  /\ (forall f, In f fixed_flags -> In f destroy_args).
Proof. repeat split; intros f Hf; cbn in Hf |- *; tauto. Qed.

(** Case analysis on the scrutinee of the first [match] of the goal. *)
Ltac case_scrutinee :=
  match goal with
  | |- context [match ?x with _ => _ end] =>
      lazymatch x with
      | context [match _ with _ => _ end] => fail
      | _ => destruct x eqn:?
      end
  end.

(** [cmd.Run()] adds one command to the processes launched and changes
    nothing else but the files. *)
Lemma Run_frame (c : Cmd) (m : Machine) :
  exists r m',
    Run c m = (Returns r, m')
    /\ recv m' = recv m /\ goroutines m' = goroutines m /\ enqueued m' = enqueued m
    /\ launched (os m') = c :: launched (os m)
    /\ (r, files (os m')) = terraform (os m) c (files (os m)).
Proof.
  unfold Run, os_Run.
  destruct (terraform (os m) c (files (os m))) as [r fs].
  eexists _, _. split; [reflexivity|]. repeat split; reflexivity.
Qed.

Ltac unfold_monad :=
  unfold still_running, MarkStart, MarkEnd, Flush, set_Err, go_, call_Enqueue,
    ReadFile, Run, os_Run;
  unfold LastOperation_;
  unfold defer, bind, get, modify, deref, ret, raise.

Ltac crunch := repeat (case_scrutinee; cbn beta iota); simplify_eq; cbn.

Section SyncFrame.

Context {codec : json.Codec}.

Lemma Plan_frame (ctx : Context) (m : Machine) :
  recv (snd (Plan ctx m)) = recv m /\ at_most_one_run ctx plan_args m (snd (Plan ctx m)).
Proof.
  unfold Plan, at_most_one_run. unfold_monad.
  crunch; repeat split; auto.
Qed.

Lemma Apply_frame (ctx : Context) (m : Machine) :
  recv (snd (Apply ctx m)) = recv m /\ at_most_one_run ctx apply_args m (snd (Apply ctx m)).
Proof.
  unfold Apply, at_most_one_run. unfold_monad.
  crunch; repeat split; auto.
Qed.

Lemma Refresh_frame (ctx : Context) (m : Machine) :
  at_most_one_run ctx refresh_args m (snd (Refresh ctx m)).
Proof.
  unfold Refresh, refresh_run, at_most_one_run. unfold_monad.
  crunch; repeat split; auto.
Qed.

(** X1. [Plan], [Apply] and [Refresh] start no goroutine and call no
    callback; each launches at most one process, which is terraform with
    the arguments of the operation, in the directory of the workspace and
    under the caller's context; [Plan] and [Apply] leave the workspace
    record as it was. This holds from every machine, the panicking runs
    included. *)
Theorem synchronous_operations_frame (ctx : Context) (m : Machine) :
  (recv (snd (Plan ctx m)) = recv m /\ at_most_one_run ctx plan_args m (snd (Plan ctx m)))
  /\ (recv (snd (Apply ctx m)) = recv m /\ at_most_one_run ctx apply_args m (snd (Apply ctx m)))
  /\ at_most_one_run ctx refresh_args m (snd (Refresh ctx m)).
Proof.
  split; [exact (Plan_frame ctx m)|]. split; [exact (Apply_frame ctx m)|].
  exact (Refresh_frame ctx m).
Qed.

End SyncFrame.

(** ** workspace.go: the asynchronous operations and their goroutines *)


Section Goroutines.

Context {codec : json.Codec}.

(** What the body of a goroutine does, step by step. *)
Lemma goroutine_steps (g : Goroutine) (m : Machine) (o : Operation) (f : nat)
      (r : Completed) (fs : gmap string string) :
  LastOperation (recv m) = Some o ->
  Enqueue (recv m) = Some f ->
  terraform (os m) (goroutine_cmd g (dir (recv m))) (files (os m)) = (r, fs) ->
  exists m',
    run_goroutine g m = (Returns tt, m')
    /\ LastOperation (recv m')
       = Some {| Type_ := Type_ o; StartTime := StartTime o; EndTime := EndTime o;
                 err := match run_err r with
                        | Some e => Some (Wrapf e (goroutine_format g) [ArgString (Stderr r)])
                        | None => err o
                        end |}
    /\ Enqueue (recv m') = Enqueue (recv m)
    /\ dir (recv m') = dir (recv m)
    /\ os m' = with_files fs (with_launched (goroutine_cmd g (dir (recv m))) (os m))
    /\ goroutines m' = goroutines m
    /\ enqueued m' = f :: enqueued m.
Proof.
  intros Hop Henq Htf.
  destruct g as [c|c]; unfold run_goroutine, goroutine_cmd, goroutine_format in *;
    unfold_monad; unfold set_LastOperation; cbn; rewrite Htf; cbn;
    destruct (run_err r) as [e|]; cbn; rewrite ?Hop, ?Henq; cbn; rewrite ?Henq;
    eexists; (split; [reflexivity|]); cbn; rewrite ?Hop;
    repeat split; try reflexivity; try exact Henq; destruct o; reflexivity.
Qed.


End Goroutines.

(** ** workspace.go: the results of the operations *)

Section Results.

Context {codec : json.Codec}.

(** X4. [Plan] guards on the Running state itself: with a [LastOperation]
    that is not nil, it returns the Busy error if and only if the
    Operation is Running (start time set, end time not), and then it
    leaves the machine as it was. *)
Theorem Plan_Busy_iff_Running (ctx : Context) (m : Machine) (o : Operation) :
  LastOperation (recv m) = Some o ->
  ((exists r e, fst (Plan ctx m) = Returns (r, Some e) /\ isBusy (Some e) = true)
   <-> isRunning o = true)
  /\ (isRunning o = true -> snd (Plan ctx m) = m).
Proof.
  intros Hop. unfold Plan, isRunning. unfold_monad. rewrite Hop. cbn beta iota.
  destruct (StartTime o) as [s|], (EndTime o) as [e|]; cbn [nonnil negb andb];
    try (split; [split; [|discriminate] | discriminate]);
    try (split; [split; [intros _; reflexivity | intros _; eexists _, _; split; reflexivity]
                | intros _; reflexivity]);
    intros (r & e' & H & Hb); revert H Hb; crunch; intros H Hb; simplify_eq; discriminate Hb.
Qed.

(** X5. An error never comes with a result: whenever [Plan], [Apply] or
    [Refresh] returns an error, the result beside it is the zero value;
    and whenever [Refresh] returns a state, its error is nil, its two
    flags are false and it reports no operation error. *)
Theorem errors_come_with_zero_results (ctx : Context) (m : Machine) :
  match fst (Plan ctx m) with
  | Returns (r, Some _) => r = PlanResult_zero
  | _ => True
  end
  /\ match fst (Apply ctx m) with
     | Returns (r, Some _) => r = ApplyResult_zero
     | _ => True
     end
  /\ match fst (Refresh ctx m) with
     | Returns (r, Some _) => r = RefreshResult_zero
     | Returns (r, None) =>
         State r = None
         \/ (IsApplying r = false /\ IsDestroying r = false /\ LastOperationError r = None)
     | Panics _ => True
     end.
Proof.
  split; [|split].
  - unfold Plan. unfold_monad. crunch; cbn in *; simplify_eq; auto.
  - unfold Apply. unfold_monad. crunch; cbn in *; simplify_eq; auto.
  - unfold Refresh, refresh_run. unfold_monad. crunch; cbn in *; simplify_eq; cbn; auto.
Qed.


(** X6. [Refresh] while the Operation is Running answers from the
    Operation alone: it reports whether the type is apply and whether it
    is destroy, no state, no operation error and a nil error, and the
    machine is as it was: no process is launched. *)
Theorem Refresh_while_Running (ctx : Context) (m : Machine) (o : Operation) :
  LastOperation (recv m) = Some o ->
  isRunning o = true ->
  Refresh ctx m
  = (Returns ({| IsApplying := String.eqb (Type_ o) "apply";
                 IsDestroying := String.eqb (Type_ o) "destroy";
                 State := None; LastOperationError := None |}, None), m).
Proof.
  intros Hop Hrun. destruct (isRunning_fields o Hrun) as (s & Hs & He).
  unfold Refresh. unfold_monad. rewrite Hop. cbn beta iota. rewrite Hs, He. reflexivity.
Qed.

Lemma Refresh_with_error (ctx : Context) (m : Machine) (o : Operation)
        (e : error) :
  LastOperation (recv m) = Some o ->
  isFinished o = true ->
  err o = Some e ->
  fst (Refresh ctx m)
  = Returns ({| IsApplying := String.eqb (Type_ o) "apply";
                IsDestroying := String.eqb (Type_ o) "destroy";
                State := None;
                LastOperationError :=
                  Some (Wrapf e "%s operation failed" [ArgString (Type_ o)]) |}, None)
  /\ os (snd (Refresh ctx m)) = os m.
Proof.
  intros Hop Hfin Herr. destruct (isFinished_fields o Hfin) as (s & t & Hs & He).
  unfold Refresh. unfold_monad. rewrite Hop. cbn beta iota. rewrite Hs, He. cbn.
  rewrite Hop. cbn. rewrite Herr. split; reflexivity.
Qed.

(** X7. [Refresh] on a Finished Operation that carries an error reports
    that error, wrapped as "<type> operation failed", in
    [LastOperationError], beside the two flags of the type; its own error
    is nil, it returns no state and it launches no process. *)
Theorem Refresh_after_failed_operation (ctx : Context) (m : Machine) (o : Operation)
        (e : error) :
  LastOperation (recv m) = Some o ->
  isFinished o = true ->
  err o = Some e ->
  fst (Refresh ctx m)
  = Returns ({| IsApplying := String.eqb (Type_ o) "apply";
                IsDestroying := String.eqb (Type_ o) "destroy";
                State := None;
                LastOperationError :=
                  Some (Wrapf e "%s operation failed" [ArgString (Type_ o)]) |}, None)
  /\ os (snd (Refresh ctx m)) = os m.
Proof. exact (Refresh_with_error ctx m o e). Qed.

(** The state of the Operation in which [Refresh] goes on to the
    provisioner: never started, or Finished without error and not of type
    destroy. *)
Lemma Refresh_runs (ctx : Context) (m : Machine) (o : Operation) :
  LastOperation (recv m) = Some o ->
  refreshable o = true ->
  fst (Refresh ctx m) = fst (refresh_run ctx m)
  /\ os (snd (Refresh ctx m)) = os (snd (refresh_run ctx m)).
Proof.
  intros Hop Hr. unfold refreshable in Hr. unfold Refresh.
  rewrite !(bind_Returns _ _ _ _ _ (LastOperation_Some m o Hop)).
  destruct (StartTime o) as [s|]; cbn [nonnil] in *; [|split; reflexivity].
  destruct (EndTime o) as [t|]; cbn [nonnil negb andb orb] in *; [|discriminate Hr].
  destruct (err o) as [e|] eqn:Herr; [discriminate Hr|].
  destruct (String.eqb (Type_ o) "destroy") eqn:Hty; [discriminate Hr|].
  unfold defer, Flush, ret.
  rewrite !(bind_Returns _ _ _ _ _ (LastOperation_Some m o Hop)). rewrite Herr, Hty.
  destruct (refresh_run ctx m) as [[r|p] m']; split; reflexivity.
Qed.

(** X8. [Apply] past its guard returns what the provisioner left behind.
    When the process fails, the error is the process error wrapped with
    the standard error output, and the state file is not read. When it
    succeeds, the state file is read as the process left it: if it is
    missing, the error is the wrapped not-exist error; if it decodes, the
    decoded state is returned with a nil error. *)
Theorem Apply_returns_written_state (ctx : Context) (m : Machine) (o : Operation) (t : Time)
        (r : Completed) (fs : gmap string string) :
  LastOperation (recv m) = Some o ->
  EndTime o = Some t ->
  terraform (os m) (terraform_cmd ctx apply_args (dir (recv m))) (files (os m)) = (r, fs) ->
  let path := filepath_Join (dir (recv m)) "terraform.tfstate" in
  (forall e, run_err r = Some e ->
     fst (Apply ctx m)
     = Returns (ApplyResult_zero, Some (Wrapf e "cannot apply: %s" [ArgString (Stderr r)])))
  /\ (run_err r = None -> faults (os m) (SysReadFile path) = None ->
      (fs !! path = None ->
         fst (Apply ctx m)
         = Returns (ApplyResult_zero,
                    Some (Wrap (ErrNotExist path) "cannot read terraform state file")))
      /\ (forall raw st, fs !! path = Some raw ->
             json.UnmarshalState raw json.StateV4_zero = (st, None) ->
             fst (Apply ctx m) = Returns ({| ar_State := Some st |}, None))).
Proof.
  intros Hop He Htf path. unfold Apply. unfold_monad. unfold os_ReadFile.
  rewrite Hop. cbn beta iota. rewrite He. cbn [nonnil negb]. cbn beta iota.
  rewrite Htf. cbn beta iota. split.
  - intros e Hr. rewrite Hr. reflexivity.
  - intros Hr Hf. rewrite Hr. cbn. fold path. rewrite Hf. split.
    + intros Hn. rewrite Hn. reflexivity.
    + intros raw st Hraw Hst. rewrite Hraw. cbn. rewrite Hst. reflexivity.
Qed.

(** X9. [Refresh], when the Operation was never started or is Finished
    without error and not of type destroy, returns what the refresh-only
    run left behind, in the same way: the wrapped process error, the
    wrapped not-exist error of a missing state file, or the decoded state
    with both flags false. *)
Theorem Refresh_returns_written_state (ctx : Context) (m : Machine) (o : Operation)
        (r : Completed) (fs : gmap string string) :
  LastOperation (recv m) = Some o ->
  refreshable o = true ->
  terraform (os m) (terraform_cmd ctx refresh_args (dir (recv m))) (files (os m)) = (r, fs) ->
  let path := filepath_Join (dir (recv m)) "terraform.tfstate" in
  (forall e, run_err r = Some e ->
     fst (Refresh ctx m)
     = Returns (RefreshResult_zero, Some (Wrapf e "cannot refresh: %s" [ArgString (Stderr r)])))
  /\ (run_err r = None -> faults (os m) (SysReadFile path) = None ->
      (fs !! path = None ->
         fst (Refresh ctx m)
         = Returns (RefreshResult_zero,
                    Some (Wrap (ErrNotExist path) "cannot read terraform state file")))
      /\ (forall raw st, fs !! path = Some raw ->
             json.UnmarshalState raw json.StateV4_zero = (st, None) ->
             fst (Refresh ctx m)
             = Returns ({| IsApplying := false; IsDestroying := false; State := Some st;
                           LastOperationError := None |}, None))).
Proof.
  intros Hop Hr Htf path. destruct (Refresh_runs ctx m o Hop Hr) as [-> _].
  unfold refresh_run. unfold_monad. unfold os_ReadFile.
  rewrite Htf. cbn beta iota. split.
  - intros e Hre. rewrite Hre. reflexivity.
  - intros Hre Hf. rewrite Hre. cbn. fold path. rewrite Hf. split.
    + intros Hn. rewrite Hn. reflexivity.
    + intros raw st Hraw Hst. rewrite Hraw. cbn. rewrite Hst. reflexivity.
Qed.


(** X10. A failed background apply is surfaced by the next refresh. From
    a Finished Operation, [ApplyAsync] starts its goroutine; when the
    process of that goroutine fails, the following [Refresh] returns a nil
    error and, in [LastOperationError], the process error wrapped first
    with the standard error output and then as "<type> operation failed",
    the type being the one the Operation has. *)
Theorem failed_async_apply_surfaces (ctx ctx' : Context) (m : Machine) (o : Operation)
        (s t : Time) (f : nat) (r : Completed) (fs : gmap string string) (e : error) :
  LastOperation (recv m) = Some o ->
  StartTime o = Some s ->
  EndTime o = Some t ->
  Enqueue (recv m) = Some f ->
  terraform (os m) (terraform_cmd (async_deadline s) apply_args (dir (recv m))) (files (os m))
  = (r, fs) ->
  run_err r = Some e ->
  fst ((do _ <- ApplyAsync ctx;
        do _ <- run_goroutine (GoApply (async_deadline s));
        Refresh ctx') m)
  = Returns ({| IsApplying := String.eqb (Type_ o) "apply";
                IsDestroying := String.eqb (Type_ o) "destroy";
                State := None;
                LastOperationError :=
                  Some (Wrapf (Wrapf e "cannot apply: %s" [ArgString (Stderr r)])
                          "%s operation failed" [ArgString (Type_ o)]) |}, None).
Proof.
  intros Hop Hs Ht Henq Htf Hre.
  rewrite (bind_Returns _ _ _ _ _ (ApplyAsync_Finished ctx m o s t Hop Hs Ht)).
  destruct (goroutine_steps (GoApply (async_deadline s)) (spawned (GoApply (async_deadline s)) m)
              o f r fs Hop Henq Htf) as (m2 & Hrun & Hop2 & _).
  rewrite (bind_Returns _ _ _ _ _ Hrun).
  rewrite Hre in Hop2.
  destruct (Refresh_with_error ctx' m2 _
              (Wrapf e "cannot apply: %s" [ArgString (Stderr r)]) Hop2) as [HR _].
  - unfold isFinished. cbn. rewrite Hs, Ht. reflexivity.
  - reflexivity.
  - exact HR.
Qed.


(** X11. No operation of a workspace and no goroutine body changes the
    directory of the workspace, its callback, whether [LastOperation] is
    nil, or the type, start time and end time of the Operation; this
    holds from every machine, the panicking runs included. (The one field
    that does change is the Operation's error, in a goroutine whose
    process fails.) *)
Theorem workspace_identity_is_kept (ctx : Context) (g : Goroutine) (m : Machine) :
  same_workspace (recv m) (recv (snd (Plan ctx m)))
  /\ same_workspace (recv m) (recv (snd (Apply ctx m)))
  /\ same_workspace (recv m) (recv (snd (ApplyAsync ctx m)))
  /\ same_workspace (recv m) (recv (snd (Destroy ctx m)))
  /\ same_workspace (recv m) (recv (snd (Refresh ctx m)))
  /\ same_workspace (recv m) (recv (snd (run_goroutine g m))).
Proof.
  unfold same_workspace.
  split; [rewrite (proj1 (Plan_frame ctx m)); auto|].
  split; [rewrite (proj1 (Apply_frame ctx m)); auto|].
  split; [unfold ApplyAsync; unfold_monad; crunch; auto|].
  split; [unfold Destroy; unfold_monad; crunch; auto|].
  split; [unfold Refresh, refresh_run; unfold_monad; crunch; auto|].
  destruct g; unfold run_goroutine; unfold_monad; unfold set_LastOperation;
    crunch; cbn in *; simplify_eq; cbn; repeat split; auto;
    match goal with
    | H : LastOperation (recv m) = Some ?o |- _ => unfold lifecycle; rewrite H; reflexivity
    end.
Qed.

End Results.

(** ** store.go: Workspace *)

Section StoreExtras.

Context {codec : json.Codec}.
Variable key : string.




Lemma write_tfstate_registry (d : string) (fp : FileProducer) (s : StoreMachine) :
  registry (snd (write_tfstate key d fp s)) = registry s.
Proof.
  unfold write_tfstate, bind, on_fp.
  destruct (TFState_returns key fp) as [[st te] ->].
  destruct te as [te|]; [reflexivity|].
  destruct st as [st|]; [|reflexivity].
  destruct (json.MarshalState st) as [rawState [me|]]; [reflexivity|].
  unfold WriteFile, os_WriteFile.
  destruct (faults (sos s) _) as [we|]; reflexivity.
Qed.

Lemma Workspace_outcome (tr : Terraformed) (enq : EnqueueFn) (sm sm' : StoreMachine)
      (res : outcome (option Workspace * option error)) :
  WorkspaceStore_Workspace key tr enq sm = (res, sm') ->
  match res with
  | Returns (Some _, None) => True
  | Returns (w, _) => w = None /\ registry sm' = registry sm
  | Panics _ => registry sm' = registry sm
  end.
Proof.
  intros H. unfold WorkspaceStore_Workspace in H.
  unfold bind at 1 in H. unfold get at 1 in H.
  set (d := filepath_Join (TempDir (sos sm)) (GetUID tr)) in H.
  destruct (NewFileProducer tr) as [[fp|] [e|]];
    try (injection H as <- <-; cbn; auto; fail).
  destruct (os_MkdirAll d (sos sm)) as [e|]; [injection H as <- <-; cbn; auto|].
  destruct (Ignore os_IsNotExist _) as [e|]; [injection H as <- <-; cbn; auto|].
  unfold bind at 1 in H.
  match type of H with
  | context [(if ?c then ?a else ?b) sm] =>
      assert (Hreg : registry (snd ((if c then a else b) sm)) = registry sm)
        by (destruct c; [apply write_tfstate_registry | reflexivity]);
      destruct ((if c then a else b) sm) as [[[e1 fp1]|p] s1]
  end; cbn in Hreg; [|injection H as <- <-; exact Hreg].
  destruct e1 as [e1|]; [injection H as <- <-; cbn; auto|].
  unfold bind at 1 in H. unfold on_fp in H.
  destruct (MainTF fp1) as [[hcl|p] fp']; [|injection H as <- <-; exact Hreg].
  cbn [fst] in H.
  destruct (json.Marshal (VMap hcl)) as [rawHCL [e|]]; [injection H as <- <-; cbn; auto|].
  unfold bind at 1 in H. unfold WriteFile, os_WriteFile in H.
  destruct (faults (sos s1) _) as [e|]; [injection H as <- <-; cbn; auto|].
  unfold bind, get, modify, ret in H. cbn in H.
  destruct (LoadOrStore _ _ _) as [[w0 loaded] ws']. injection H as <- <-. exact I.
Qed.

(** X13. A call of [Workspace] that does not succeed registers nothing:
    when it returns an error, the workspace beside the error is nil, and
    when it returns an error or panics, the registry is as it was. *)
Theorem Workspace_failure_registers_nothing (tr : Terraformed) (enq : EnqueueFn)
        (sm : StoreMachine) :
  match fst (WorkspaceStore_Workspace key tr enq sm) with
  | Returns (Some _, None) => True
  | Returns (w, _) => w = None /\ registry (snd (WorkspaceStore_Workspace key tr enq sm)) = registry sm
  | Panics _ => registry (snd (WorkspaceStore_Workspace key tr enq sm)) = registry sm
  end.
Proof.
  destruct (WorkspaceStore_Workspace key tr enq sm) as [res sm'] eqn:H.
  exact (Workspace_outcome tr enq sm sm' res H).
Qed.










Lemma NewFileProducer_caches (tr : Terraformed) (fp : FileProducer) (e : option error) :
  NewFileProducer tr = (Some fp, e) ->
  parameters fp = fst (GetParameters tr) /\ observation fp = fst (GetObservation tr).
Proof.
  unfold NewFileProducer.
  destruct (GetParameters tr) as [p [pe|]]; [discriminate|].
  destruct (GetObservation tr) as [o [oe|]]; [discriminate|].
  intros H. injection H as <- _. split; reflexivity.
Qed.

(** X16. A resource whose [GetParameters] returns a nil map never gets a
    workspace: [Workspace] does not succeed for it, and when the getters,
    [MkdirAll] and [Stat] report no error and the state file is there, it
    panics on the assignment into the nil map, leaving the machine as it
    was. *)
Theorem Workspace_of_nil_parameters (tr : Terraformed) (enq : EnqueueFn) (sm : StoreMachine) :
  fst (GetParameters tr) = None ->
  (forall w, fst (WorkspaceStore_Workspace key tr enq sm) <> Returns (Some w, None))
  /\ (let d := filepath_Join (TempDir (sos sm)) (GetUID tr) in
      snd (GetParameters tr) = None ->
      snd (GetObservation tr) = None ->
      os_MkdirAll d (sos sm) = None ->
      os_Stat (filepath_Join d "terraform.tfstate") (sos sm) = None ->
      WorkspaceStore_Workspace key tr enq sm = (Panics NilMapAssignment, sm)).
Proof.
  intros Hnil. split.
  - intros w Hw.
    destruct (WorkspaceStore_Workspace key tr enq sm) as [res sm'] eqn:H. cbn in Hw. subst res.
    destruct (Workspace_returns key tr enq sm sm' w H) as (fp & fp' & hcl & loaded & Hn & HM & _).
    destruct (NewFileProducer_caches tr fp None Hn) as [Hp _].
    rewrite Hnil in Hp. rewrite (MainTF_nil fp Hp) in HM. discriminate HM.
  - intros d Hpe Hoe Hmk Hst. unfold WorkspaceStore_Workspace.
    unfold bind at 1. unfold get at 1. fold d. unfold NewFileProducer.
    destruct (GetParameters tr) as [p pe]. cbn in Hnil, Hpe. subst p pe.
    destruct (GetObservation tr) as [o oe]. cbn in Hoe. subst oe.
    rewrite Hmk, Hst. cbn. reflexivity.
Qed.

(** X17. When a getter of the resource fails, [Workspace] returns its
    error wrapped twice, by [NewFileProducer] and by itself, and touches
    neither the files nor the registry; the error of [GetParameters] comes
    before the one of [GetObservation]. *)
Theorem Workspace_of_failing_getters (tr : Terraformed) (enq : EnqueueFn) (sm : StoreMachine) :
  (forall e, snd (GetParameters tr) = Some e ->
     WorkspaceStore_Workspace key tr enq sm
     = (Returns (None, Some (Wrap (Wrap e "cannot get parameters")
                               "cannot create a new file producer")), sm))
  /\ (forall e, snd (GetParameters tr) = None -> snd (GetObservation tr) = Some e ->
       WorkspaceStore_Workspace key tr enq sm
       = (Returns (None, Some (Wrap (Wrap e "cannot get observation")
                                 "cannot create a new file producer")), sm)).
Proof.
  split.
  - intros e He. unfold WorkspaceStore_Workspace, NewFileProducer.
    unfold bind, get. destruct (GetParameters tr) as [p pe]. cbn in He. subst pe. reflexivity.
  - intros e Hp He. unfold WorkspaceStore_Workspace, NewFileProducer.
    unfold bind, get. destruct (GetParameters tr) as [p pe]. cbn in Hp. subst pe.
    destruct (GetObservation tr) as [o oe]. cbn in He. subst oe. reflexivity.
Qed.

End StoreExtras.

(** ** store.go: Remove *)

Section RemoveProperties.

Variable RemoveAll_fails : string -> gmap string string -> option (error * gmap string string).


(** X18. [Remove] of a UID that is not registered returns nil and changes
    nothing. For a registered UID whose directory [RemoveAll] removes, it
    returns nil, drops the entry and nothing else from the registry, and
    leaves no file at or under the directory and every other file as it
    was. When [RemoveAll] fails, it returns the error wrapped and keeps
    the registry as it was. *)
Theorem Remove_behaviour (uid : string) (sm : StoreMachine) :
  (store (registry sm) !! uid = None ->
     WorkspaceStore_Remove RemoveAll_fails uid sm = (Returns None, sm))
  /\ (forall w, store (registry sm) !! uid = Some w -> dir w <> "" ->
       (RemoveAll_fails (dir w) (files (sos sm)) = None ->
          exists sm',
            WorkspaceStore_Remove RemoveAll_fails uid sm = (Returns None, sm')
            /\ store (registry sm') = delete uid (store (registry sm))
            /\ setup (registry sm') = setup (registry sm)
            /\ (forall p, files (sos sm') !! p
                           = if under (dir w) p then None else files (sos sm) !! p))
       /\ (forall e fs, RemoveAll_fails (dir w) (files (sos sm)) = Some (e, fs) ->
             exists sm',
               WorkspaceStore_Remove RemoveAll_fails uid sm
               = (Returns (Some (Wrap e "cannot remove workspace folder")), sm')
               /\ registry sm' = registry sm)).
Proof.
  split.
  - intros Hl. unfold WorkspaceStore_Remove, bind, get. rewrite Hl. reflexivity.
  - intros w Hl Hd. apply String.eqb_neq in Hd. split.
    + intros Hok. unfold WorkspaceStore_Remove, os_RemoveAll, bind, get, modify, ret.
      rewrite Hl, Hd, Hok. cbn. eexists. split; [reflexivity|]. cbn.
      split; [reflexivity|]. split; [reflexivity|].
      intros p. destruct (under (dir w) p) eqn:Hu.
      * apply map_lookup_filter_None. right. intros x _. cbn. rewrite Hu. discriminate.
      * destruct (files (sos sm) !! p) as [x|] eqn:Hp.
        -- apply map_lookup_filter_Some. split; [exact Hp | exact Hu].
        -- apply map_lookup_filter_None. left. exact Hp.
    + intros e fs Hf. unfold WorkspaceStore_Remove, os_RemoveAll, bind, get, modify, ret.
      rewrite Hl, Hd, Hf. cbn. eexists. split; reflexivity.
Qed.




End RemoveProperties.

(** ** files.go *)

(** X20. For a producer whose parameters map is not nil, [MainTF] returns
    a configuration with the three blocks terraform, provider and
    resource and no other; its resource block holds, under the type and
    the name of the resource, the parameters with prevent_destroy set to
    the negation of the deletion mark and every other parameter as it
    was; and calling [MainTF] again returns the same configuration and
    leaves the producer as the first call left it. *)
Theorem MainTF_configuration (fp : FileProducer) (p : gmap string Value) :
  parameters fp = Some p ->
  let p' := <["prevent_destroy" := VBool (negb (WasDeleted (Resource fp)))]> p in
  exists hcl,
    MainTF fp = (Returns hcl, set_parameters (Some p') fp)
    /\ (do _ <- MainTF; MainTF) fp = (Returns hcl, set_parameters (Some p') fp)
    /\ dom hcl = ({[ "terraform"; "provider"; "resource" ]} : gset string)
    /\ hcl !! "resource"
       = Some (VMap {[ GetTerraformResourceType (Resource fp) :=
                         VMap {[ GetName (Resource fp) := VMap p' ]} ]})
    /\ p' !! "prevent_destroy" = Some (VBool (negb (WasDeleted (Resource fp))))
    /\ (forall k, k <> "prevent_destroy" -> p' !! k = p !! k).
Proof.
  intros Hp p'. unfold MainTF, bind, get, modify, ret, map_assign. rewrite Hp. cbn.
  eexists. split; [reflexivity|].
  split; [rewrite !insert_insert_eq; reflexivity|]. split; [|split; [|split]].
  - rewrite !dom_insert_L, dom_empty_L. set_solver.
  - reflexivity.
  - apply lookup_insert_eq.
  - intros k Hk. apply lookup_insert_ne. congruence.
Qed.

Section TFStateShape.

Context {codec : json.Codec}.
Variable key : string.

(** X21. [TFState] never panics and returns either a state or an error,
    never both and never neither. The error is the encoder's, wrapped. The
    state has one resource, in mode managed, with the type and the name of
    the resource, and one instance at schema version 0; its lineage is the
    UID of the resource, its terraform version the version of the
    producer's setup, and the private raw of the instance is there
    exactly when the resource carries the annotation, with its value. *)
Theorem TFState_shape (fp : FileProducer) :
  match fst (TFState key fp) with
  | Returns (Some st, None) =>
      json.Lineage st = GetUID (Resource fp)
      /\ json.TerraformVersion st = Version (Setup fp)
      /\ exists r i,
           json.Resources st = [r] /\ json.Instances r = [i]
           /\ json.Mode r = "managed"
           /\ json.Type_ r = GetTerraformResourceType (Resource fp)
           /\ json.Name r = GetName (Resource fp)
           /\ json.SchemaVersion i = 0%Z
           /\ json.PrivateRaw i = GetAnnotations (Resource fp) !! key
  | Returns (None, Some e) =>
      exists e0, snd (json.Marshal (VMap (merged_attributes fp))) = Some e0
                 /\ e = Wrap e0 "cannot marshal produced state attributes"
  | _ => False
  end.
Proof.
  rewrite TFState_unfold.
  destruct (json.Marshal (VMap (merged_attributes fp))) as [attr [e|]]; cbn.
  - exists e. split; reflexivity.
  - split; [reflexivity|]. split; [reflexivity|].
    eexists _, _. repeat split; reflexivity.
Qed.

End TFStateShape.

(** ** pkg/terraform: the verbs *)

Section VerbProperties.

Context {T : Type} {adapter : terraform.Adapter T} {writer : verbs.Writer T}.
Variable key : string.

(** X22. On a managed resource that is not a Terraformed one, [Observe],
    [Update], [Create] and [Delete] each return the error "the managed
    resource is not an Terraformed resource" and leave everything as it
    was: no method of the adapter is called. *)
Theorem verbs_on_a_foreign_object (ctx : Context) (e : terraform.external T) :
  terraform.mg e = terraform.NotTerraformed ->
  terraform.Observe key ctx e
  = (Returns (terraform.ExternalObservation_zero, Some (New terraform.errUnexpectedObject)), e)
  /\ verbs.Update ctx e
     = (Returns ({| verbs.eu_ConnectionDetails := None |},
                 Some (New terraform.errUnexpectedObject)), e)
  /\ verbs.Create ctx e
     = (Returns ({| verbs.ec_ConnectionDetails := None |},
                 Some (New terraform.errUnexpectedObject)), e)
  /\ verbs.Delete ctx e = (Returns (Some (New terraform.errUnexpectedObject)), e).
Proof.
  intros Hmg.
  unfold terraform.Observe, verbs.Create, verbs.Update, verbs.Delete, bind, get, ret.
  rewrite Hmg. repeat split; reflexivity.
Qed.

(** X23. [Update] and [Create] on a Terraformed resource call the
    adapter's [CreateOrUpdate] once and nothing else. When it fails they
    return its error wrapped as "failed to update" and no connection
    details; when it succeeds they return its connection details and a
    nil error. [Create] returns what [Update] returns, and leaves what
    [Update] leaves. *)
Theorem Update_and_Create (ctx : Context) (e : terraform.external T) (tr tr' : Terraformed)
        (details : option (gmap string string)) (err : option error) (t' : T) :
  terraform.mg e = terraform.IsTerraformed tr ->
  verbs.tf_CreateOrUpdate ctx tr (terraform.tf e) = (details, err, tr', t') ->
  let e' := {| terraform.tf := t'; terraform.mg := terraform.IsTerraformed tr';
               terraform.tf_calls := "CreateOrUpdate" :: terraform.tf_calls e |} in
  verbs.Update ctx e
  = (Returns (match err with
              | Some x => ({| verbs.eu_ConnectionDetails := None |}, Some (Wrap x "failed to update"))
              | None => ({| verbs.eu_ConnectionDetails := details |}, None)
              end), e')
  /\ verbs.Create ctx e
     = (Returns (match err with
                 | Some x => ({| verbs.ec_ConnectionDetails := None |}, Some (Wrap x "failed to update"))
                 | None => ({| verbs.ec_ConnectionDetails := details |}, None)
                 end), e').
Proof.
  intros Hmg Hcall e'.
  unfold verbs.Create, verbs.Update, verbs.call_CreateOrUpdate, bind, get, ret.
  rewrite Hmg, Hcall. destruct err; split; reflexivity.
Qed.

(** X24. [Delete] on a Terraformed resource calls the adapter's [Delete]
    once and nothing else; it returns nil exactly when the adapter
    returns nil, and otherwise the adapter's error wrapped as "failed to
    delete". *)
Theorem Delete_wraps_the_adapter (ctx : Context) (e : terraform.external T) (tr tr' : Terraformed)
        (err : option error) (t' : T) :
  terraform.mg e = terraform.IsTerraformed tr ->
  verbs.tf_Delete ctx tr (terraform.tf e) = (err, tr', t') ->
  verbs.Delete ctx e
  = (Returns (match err with
              | Some x => Some (Wrap x "failed to delete")
              | None => None
              end),
     {| terraform.tf := t'; terraform.mg := terraform.IsTerraformed tr';
        terraform.tf_calls := "Delete" :: terraform.tf_calls e |})
  /\ (fst (verbs.Delete ctx e) = Returns None <-> err = None).
Proof.
  intros Hmg Hcall.
  unfold verbs.Delete, verbs.call_Delete, bind, get, ret. rewrite Hmg, Hcall.
  destruct err; cbn; split; try reflexivity; split; congruence.
Qed.

(** X25. [Observe] on a Terraformed resource that has an external name or
    a state calls the adapter's [Observe] once. When it fails, the result
    is the zero observation and its error wrapped as "cannot check if
    resource exists", and [Observe] adds no condition. When it succeeds,
    the four fields of the adapter's observation are returned with a nil
    error, and the condition Available is set on the resource exactly
    when the resource exists. *)
Theorem Observe_of_existing_resource (ctx : Context) (e : terraform.external T)
        (tr tr' : Terraformed) (res : terraform.Observation) (err : option error) (t' : T) :
  terraform.mg e = terraform.IsTerraformed tr ->
  String.eqb (GetExternalName tr) "" && String.eqb (terraform.GetState key tr) "" = false ->
  terraform.tf_Observe ctx tr (terraform.tf e) = (res, err, tr', t') ->
  exists tr'',
    terraform.Observe key ctx e
    = (Returns (match err with
                | Some x => (terraform.ExternalObservation_zero,
                             Some (Wrap x "cannot check if resource exists"))
                | None =>
                    ({| terraform.ResourceExists := terraform.Exists res;
                        terraform.ResourceUpToDate := terraform.UpToDate res;
                        terraform.ResourceLateInitialized := terraform.LateInitialized res;
                        terraform.eo_ConnectionDetails := terraform.ConnectionDetails res |}, None)
                end),
       {| terraform.tf := t'; terraform.mg := terraform.IsTerraformed tr'';
          terraform.tf_calls := "Observe" :: terraform.tf_calls e |})
    /\ Conditions tr''
       = (if nonnil err then Conditions tr'
          else if terraform.Exists res then "Available" :: Conditions tr' else Conditions tr')
    /\ GetAnnotations tr'' = GetAnnotations tr'
    /\ GetUID tr'' = GetUID tr'.
Proof.
  intros Hmg Hname Hcall.
  unfold terraform.Observe, terraform.call_Observe, terraform.SetConditions,
    bind, get, modify, ret.
  rewrite Hmg, Hname, Hcall.
  destruct err as [x|]; cbn.
  - exists tr'. repeat split; reflexivity.
  - destruct (terraform.Exists res); cbn; eexists; (split; [reflexivity|]);
      repeat split; reflexivity.
Qed.

End VerbProperties.

(** ** The further properties on concrete machines *)


Lemma Plan_Busy_iff_Running_witness :
  let m := machine_with (Some (op_running "apply")) in
  snd (Plan (codec := sample_codec) None m) = m.
Proof.
  intros m.
  destruct (Plan_Busy_iff_Running (codec := sample_codec) None m (op_running "apply") eq_refl)
    as [_ H].
  exact (H eq_refl).
Defined.

Lemma Refresh_while_Running_witness :
  let m := machine_with (Some (op_running "destroy")) in
  Refresh (codec := sample_codec) None m
  = (Returns ({| IsApplying := false; IsDestroying := true;
                 State := None; LastOperationError := None |}, None), m).
Proof.
  exact (Refresh_while_Running (codec := sample_codec) None
           (machine_with (Some (op_running "destroy"))) (op_running "destroy") eq_refl eq_refl).
Defined.

Lemma Refresh_after_failed_operation_witness :
  fst (Refresh (codec := sample_codec) None (machine_with (Some (op_failed "apply"))))
  = Returns ({| IsApplying := true; IsDestroying := false; State := None;
                LastOperationError :=
                  Some (Wrapf (ErrExternal "exit status 1") "%s operation failed"
                          [ArgString "apply"]) |}, None).
Proof.
  exact (proj1 (Refresh_after_failed_operation (codec := sample_codec) None
                  (machine_with (Some (op_failed "apply"))) (op_failed "apply")
                  (ErrExternal "exit status 1") eq_refl eq_refl eq_refl)).
Defined.

Lemma Apply_returns_written_state_witness :
  fst (Apply (codec := sample_codec) None (machine_with (Some (op_finished "apply"))))
  = Returns ({| ar_State := Some sample_state |}, None).
Proof.
  destruct (Apply_returns_written_state (codec := sample_codec) None
              (machine_with (Some (op_finished "apply"))) (op_finished "apply") 20%Z
              {| run_err := None; Stdout := ""; Stderr := "" |}
              {[ "/tmp/uid-1/terraform.tfstate" := "{}" ]} eq_refl eq_refl eq_refl)
    as [_ H].
  destruct (H eq_refl eq_refl) as [_ Hst].
  exact (Hst "{}" sample_state eq_refl eq_refl).
Defined.

Lemma Refresh_returns_written_state_witness :
  fst (Refresh (codec := sample_codec) None (machine_with (Some Operation_zero)))
  = Returns ({| IsApplying := false; IsDestroying := false; State := Some sample_state;
                LastOperationError := None |}, None).
Proof.
  destruct (Refresh_returns_written_state (codec := sample_codec) None
              (machine_with (Some Operation_zero)) Operation_zero
              {| run_err := None; Stdout := ""; Stderr := "" |}
              {[ "/tmp/uid-1/terraform.tfstate" := "{}" ]} eq_refl eq_refl eq_refl)
    as [_ H].
  destruct (H eq_refl eq_refl) as [_ Hst].
  exact (Hst "{}" sample_state eq_refl eq_refl).
Defined.

Lemma failed_async_apply_surfaces_witness :
  fst ((do _ <- ApplyAsync None;
        do _ <- run_goroutine (GoApply (async_deadline 10%Z));
        Refresh (codec := sample_codec) None) (failing_machine (Some (op_finished "apply"))))
  = Returns ({| IsApplying := true; IsDestroying := false; State := None;
                LastOperationError :=
                  Some (Wrapf (Wrapf (ErrExternal "exit status 1") "cannot apply: %s"
                                 [ArgString "boom"])
                          "%s operation failed" [ArgString "apply"]) |}, None).
Proof.
  exact (failed_async_apply_surfaces (codec := sample_codec) None None
           (failing_machine (Some (op_finished "apply"))) (op_finished "apply") 10%Z 20%Z 0
           {| run_err := Some (ErrExternal "exit status 1"); Stdout := ""; Stderr := "boom" |}
           ∅ (ErrExternal "exit status 1") eq_refl eq_refl eq_refl eq_refl eq_refl eq_refl).
Defined.




Lemma Workspace_of_nil_parameters_witness :
  WorkspaceStore_Workspace (codec := sample_codec) "private" nil_resource (Some 0)
    stocked_store_machine
  = (Panics NilMapAssignment, stocked_store_machine).
Proof.
  destruct (Workspace_of_nil_parameters (codec := sample_codec) "private" nil_resource (Some 0)
              stocked_store_machine eq_refl) as [_ H].
  exact (H eq_refl eq_refl eq_refl eq_refl).
Defined.

Lemma Workspace_of_failing_getters_witness :
  WorkspaceStore_Workspace (codec := sample_codec) "private" broken_resource (Some 0)
    sample_store_machine
  = (Returns (None, Some (Wrap (Wrap (ErrExternal "json: unsupported type") "cannot get parameters")
                            "cannot create a new file producer")), sample_store_machine).
Proof.
  destruct (Workspace_of_failing_getters (codec := sample_codec) "private" broken_resource
              (Some 0) sample_store_machine) as [H _].
  exact (H (ErrExternal "json: unsupported type") eq_refl).
Defined.

Lemma Remove_behaviour_witness :
  exists sm',
    WorkspaceStore_Remove RemoveAll_succeeds "uid-1" registered_store_machine = (Returns None, sm')
    /\ store (registry sm') !! "uid-1" = None
    /\ files (sos sm') !! "/tmp/uid-1/main.tf.json" = None
    /\ files (sos sm') !! "/tmp/uid-10/main.tf.json" = Some "{}".
Proof.
  destruct (Remove_behaviour RemoveAll_succeeds "uid-1" registered_store_machine) as [_ H].
  destruct (H {| LastOperation := None; Enqueue := Some 0; dir := "/tmp/uid-1" |} eq_refl)
    as [Hok _]; [discriminate|].
  destruct (Hok eq_refl) as (sm' & HR & Hs & _ & Hf).
  exists sm'. split; [exact HR|]. split; [rewrite Hs; reflexivity|].
  split; [rewrite Hf; reflexivity | rewrite Hf; reflexivity].
Defined.


Lemma MainTF_configuration_witness :
  exists hcl,
    MainTF sample_producer
    = (Returns hcl,
       set_parameters
         (Some (<["prevent_destroy" := VBool true]>
                  {[ "acl" := VString "private"; "arn" := VString "stale" ]})) sample_producer)
    /\ hcl !! "resource"
       = Some (VMap {[ "aws_s3_bucket" :=
                         VMap {[ "bucket" :=
                                   VMap (<["prevent_destroy" := VBool true]>
                                           {[ "acl" := VString "private";
                                              "arn" := VString "stale" ]}) ]} ]}).
Proof.
  destruct (MainTF_configuration sample_producer
              {[ "acl" := VString "private"; "arn" := VString "stale" ]} eq_refl)
    as (hcl & HM & _ & _ & Hr & _).
  exists hcl. split; [exact HM | exact Hr].
Defined.

Lemma verbs_on_a_foreign_object_witness :
  verbs.Delete (writer := counting_writer) None (external_of terraform.NotTerraformed)
  = (Returns (Some (New terraform.errUnexpectedObject)), external_of terraform.NotTerraformed).
Proof.
  destruct (verbs_on_a_foreign_object (adapter := counting_adapter) (writer := counting_writer)
              "terrajet.crossplane.io/state" None (external_of terraform.NotTerraformed) eq_refl)
    as (_ & _ & _ & H).
  exact H.
Defined.

Lemma Update_and_Create_witness :
  fst (verbs.Create (writer := counting_writer) None
         (external_of (terraform.IsTerraformed sample_resource)))
  = Returns ({| verbs.ec_ConnectionDetails := Some {[ "endpoint" := "s3.amazonaws.com" ]} |}, None).
Proof.
  destruct (Update_and_Create (writer := counting_writer) None
              (external_of (terraform.IsTerraformed sample_resource)) sample_resource
              sample_resource (Some {[ "endpoint" := "s3.amazonaws.com" ]}) None 1
              eq_refl eq_refl) as [_ H].
  rewrite H. reflexivity.
Defined.

Lemma Delete_wraps_the_adapter_witness :
  fst (verbs.Delete (writer := counting_writer) None
         (external_of (terraform.IsTerraformed sample_resource)))
  = Returns (Some (Wrap (ErrExternal "still in use") "failed to delete")).
Proof.
  destruct (Delete_wraps_the_adapter (writer := counting_writer) None
              (external_of (terraform.IsTerraformed sample_resource)) sample_resource
              sample_resource (Some (ErrExternal "still in use")) 1 eq_refl eq_refl) as [H _].
  rewrite H. reflexivity.
Defined.

Lemma Observe_of_existing_resource_witness :
  exists tr,
    snd (terraform.Observe (adapter := counting_adapter) "terrajet.crossplane.io/state" None
           (external_of (terraform.IsTerraformed sample_resource)))
    = {| terraform.tf := 1; terraform.mg := terraform.IsTerraformed tr;
         terraform.tf_calls := ["Observe"] |}
    /\ Conditions tr = ["Available"].
Proof.
  destruct (Observe_of_existing_resource (adapter := counting_adapter)
              "terrajet.crossplane.io/state" None
              (external_of (terraform.IsTerraformed sample_resource)) sample_resource
              sample_resource
              {| terraform.Exists := true; terraform.UpToDate := true;
                 terraform.LateInitialized := false; terraform.ConnectionDetails := None |}
              None 1 eq_refl eq_refl eq_refl) as (tr & HO & Hc & _).
  exists tr. split; [rewrite HO; reflexivity | exact Hc].
Defined.
